(** * slackish: a chat-bot command router

    Shallow embedding of [slackish.py] (classes [Command] and [Slackish])
    together with the parts of the Python standard library the router
    relies on: [str.strip], [str.lower], insertion-ordered [dict],
    [re.search] for the constructs of the mention pattern, and
    [shlex.split] in POSIX mode.

    Conventions.
    - A Python [str] is a Rocq [string]; each character is read as the code
      point of the same number, so texts range over code points below 256.
    - [None] is [None] of an [option]; a raised exception is [Raise e].
    - The effects of the bot (the class attribute [message_queue], the
      attributes [channel] and [web_client], and the calls made to
      [chat_postMessage]) are threaded through the record [World]. *)

From Stdlib Require Import String Ascii List Bool Arith NArith Lia.
Import ListNotations.
Open Scope string_scope.
Open Scope list_scope.

(* ===================================================================== *)
(** ** Python strings *)

Module PyStr.

(** [str.isspace] on one character, for code points below 256:
    TAB..CR, FS..US, SPACE, NEL and NBSP. *)
Definition isspace (c : ascii) : bool :=
  let n := N_of_ascii c in
  (((9 <=? n) && (n <=? 13)) || ((28 <=? n) && (n <=? 32))
   || (n =? 133) || (n =? 160))%N.

Fixpoint lstrip (s : string) : string :=
  match s with
  | EmptyString => EmptyString
  | String c s' => if isspace c then lstrip s' else s
  end.

Fixpoint rstrip (s : string) : string :=
  match s with
  | EmptyString => EmptyString
  | String c s' =>
      match rstrip s' with
      | EmptyString => if isspace c then EmptyString else String c EmptyString
      | r => String c r
      end
  end.

(** [s.strip()] with no argument. *)
Definition strip (s : string) : string := rstrip (lstrip s).

(** [str.lower] on one character, for code points below 256:
    A..Z and the accented capitals 0xC0..0xDE (0xD7 excepted) move
    up by 32. *)
Definition lower_char (c : ascii) : ascii :=
  let n := N_of_ascii c in
  if (((65 <=? n) && (n <=? 90)) || ((192 <=? n) && (n <=? 214))
      || ((216 <=? n) && (n <=? 222)))%N
  then ascii_of_N (n + 32) else c.

Fixpoint lower (s : string) : string :=
  match s with
  | EmptyString => EmptyString
  | String c s' => String (lower_char c) (lower s')
  end.

(** Truth value of an optional string: [None] and [''] are falsy. *)
Definition truthy (v : option string) : bool :=
  match v with
  | Some (String _ _) => true
  | _ => false
  end.

End PyStr.

(* ===================================================================== *)
(** ** Python dictionaries with string keys

    Insertion order is kept: assigning to a key that is present replaces
    its value in place, assigning to a new key appends it. *)

Module PyDict.

Definition dict (V : Type) : Type := list (string * V).

Definition empty {V} : dict V := [].

Fixpoint get {V} (k : string) (d : dict V) : option V :=
  match d with
  | [] => None
  | (k', v) :: d' => if String.eqb k k' then Some v else get k d'
  end.

(** [d[k] = v] *)
Fixpoint set {V} (k : string) (v : V) (d : dict V) : dict V :=
  match d with
  | [] => [(k, v)]
  | (k', v') :: d' =>
      if String.eqb k k' then (k', v) :: d' else (k', v') :: set k v d'
  end.

(** [k in d] *)
Definition contains {V} (k : string) (d : dict V) : bool :=
  match get k d with Some _ => true | None => false end.

(** Iteration order of [for k in d]. *)
Definition keys {V} (d : dict V) : list string := map fst d.

(** [dict(pairs)]: the pairs are inserted from left to right. *)
Definition of_pairs {V} (ps : list (string * V)) : dict V :=
  fold_left (fun d kv => set (fst kv) (snd kv) d) ps empty.

End PyDict.

(* ===================================================================== *)
(** ** Exceptions and results *)

Inductive exn : Type :=
| KeyError (key : string)
| IndexError (msg : string)
| ValueError (msg : string)
| AttributeError (msg : string)
| TypeError (msg : string)
| OtherException (name : string)  (* any other subclass of Exception *)
| NonException (name : string).   (* BaseException outside Exception,
                                     e.g. SystemExit, KeyboardInterrupt *)

(** [except KeyError] *)
Definition is_KeyError (e : exn) : bool :=
  match e with KeyError _ => true | _ => false end.

(** [except Exception] *)
Definition is_Exception (e : exn) : bool :=
  match e with NonException _ => false | _ => true end.

Inductive result (A : Type) : Type :=
| Ok (a : A)
| Raise (e : exn).
Arguments Ok {A} a.
Arguments Raise {A} e.

(* ===================================================================== *)
(** ** Regular expressions: the constructs of the mention pattern

    A backtracking matcher in continuation-passing style, with the
    priorities of [re]: the left branch of an alternation first, a greedy
    repetition longest first, a lazy one shortest first.  Repetition is
    over one-character atoms, which is what the mention pattern uses. *)

Module Re.

Inductive atom : Type :=
| Lit (c : ascii)                          (* an ordinary character *)
| Dot                                      (* [.]: anything but newline *)
| Class (negated : bool) (cs : list ascii). (* [[...]] and [[^...]] *)

Inductive regex : Type :=
| Eps                                      (* the empty pattern *)
| Bol                                      (* [^] *)
| Atom (a : atom)
| Seq (r1 r2 : regex)
| Alt (r1 r2 : regex)                      (* [r1|r2] *)
| Repeat (greedy at_least_one : bool) (a : atom)  (* [* + *? +?] *)
| Group (n : nat) (r : regex).             (* n-th capturing group *)

Definition newline : ascii := "010"%char.

Definition atom_matches (a : atom) (c : ascii) : bool :=
  match a with
  | Lit c' => Ascii.eqb c c'
  | Dot => negb (Ascii.eqb c newline)
  | Class negated cs => xorb negated (existsb (Ascii.eqb c) cs)
  end.

(** Captured groups, most recent binding first. *)
Definition caps : Type := list (nat * string).

Fixpoint cap_get (n : nat) (c : caps) : option string :=
  match c with
  | [] => None
  | (n', s) :: c' => if Nat.eqb n n' then Some s else cap_get n c'
  end.

(** A continuation receives the position reached, the input left and the
    groups captured so far. *)
Definition cont : Type := nat -> string -> caps -> option caps.

Definition one (a : atom) (pos : nat) (s : string) (c : caps) (k : cont)
  : option caps :=
  match s with
  | String ch s' => if atom_matches a ch then k (S pos) s' c else None
  | EmptyString => None
  end.

Fixpoint rep_greedy (a : atom) (pos : nat) (s : string) (c : caps)
         (k : cont) : option caps :=
  match s with
  | String ch s' =>
      if atom_matches a ch then
        match rep_greedy a (S pos) s' c k with
        | Some r => Some r
        | None => k pos s c
        end
      else k pos s c
  | EmptyString => k pos s c
  end.

Fixpoint rep_lazy (a : atom) (pos : nat) (s : string) (c : caps)
         (k : cont) : option caps :=
  match k pos s c with
  | Some r => Some r
  | None =>
      match s with
      | String ch s' =>
          if atom_matches a ch then rep_lazy a (S pos) s' c k else None
      | EmptyString => None
      end
  end.

Fixpoint run (r : regex) (pos : nat) (s : string) (c : caps) (k : cont)
  : option caps :=
  match r with
  | Eps => k pos s c
  | Bol => if Nat.eqb pos 0 then k pos s c else None
  | Atom a => one a pos s c k
  | Seq r1 r2 => run r1 pos s c (fun pos' s' c' => run r2 pos' s' c' k)
  | Alt r1 r2 =>
      match run r1 pos s c k with
      | Some x => Some x
      | None => run r2 pos s c k
      end
  | Repeat greedy at_least_one a =>
      let loop := if greedy then rep_greedy a else rep_lazy a in
      if at_least_one
      then one a pos s c (fun pos' s' c' => loop pos' s' c' k)
      else loop pos s c k
  | Group n r' =>
      run r' pos s c
          (fun pos' s' c' => k pos' s' ((n, substring 0 (pos' - pos) s) :: c'))
  end.

Fixpoint ngroups (r : regex) : nat :=
  match r with
  | Seq r1 r2 | Alt r1 r2 => Nat.max (ngroups r1) (ngroups r2)
  | Group n r' => Nat.max n (ngroups r')
  | _ => 0
  end.

(** A match object: the groups that took part, and how many groups the
    pattern has. *)
Record Match : Type := { m_caps : caps; m_ngroups : nat }.

Definition accept : cont := fun _ _ c => Some c.

(** [re.search] tries every start position from the left. *)
Fixpoint search_from (r : regex) (pos : nat) (s : string) : option caps :=
  match run r pos s [] accept with
  | Some c => Some c
  | None =>
      match s with
      | String _ s' => search_from r (S pos) s'
      | EmptyString => None
      end
  end.

Definition search (r : regex) (text : string) : option Match :=
  match search_from r 0 text with
  | Some c => Some {| m_caps := c; m_ngroups := ngroups r |}
  | None => None
  end.

(** [m.group(i)] for [i >= 1]: [None] when the group took no part in the
    match, [IndexError] when the pattern has no such group. *)
Definition group (m : Match) (i : nat) : result (option string) :=
  if Nat.leb i (m_ngroups m) then Ok (cap_get i (m_caps m))
  else Raise (IndexError "no such group").

End Re.

(* ===================================================================== *)
(** ** [shlex.split(s)]: POSIX mode, [whitespace_split], no comment
    characters

    One pass over the input with the state of [shlex.read_token]: the
    lexer state, [escapedstate], the flag [quoted] and the token being
    built.  A token is handed out where [read_token] breaks out of its
    loop; the three per-token variables are then reset. *)

Module Shlex.

Inductive lexstate : Type :=
| St_space                 (* state [' '] *)
| St_word                  (* state ['a'] *)
| St_quote (q : ascii)     (* state is the opening quote *)
| St_escape.               (* state is the escape character *)

Definition escape : ascii := "\"%char.
Definition dquote : ascii := "034"%char.
Definition squote : ascii := "'"%char.

Definition is_whitespace (c : ascii) : bool :=
  existsb (Ascii.eqb c) [" "; "009"; "013"; "010"]%char.
Definition is_quote (c : ascii) : bool :=
  Ascii.eqb c squote || Ascii.eqb c dquote.
Definition is_escape (c : ascii) : bool := Ascii.eqb c escape.
(** [escapedquotes] is the double quote alone. *)
Definition is_escapedquote (c : ascii) : bool := Ascii.eqb c dquote.

Definition push (token : string) (c : ascii) : string :=
  token ++ String c EmptyString.

Definition nonempty (s : string) : bool :=
  match s with EmptyString => false | _ => true end.

Definition cons_token (t : string) (r : result (list string))
  : result (list string) :=
  match r with
  | Ok ts => Ok (t :: ts)
  | Raise e => Raise e
  end.

Fixpoint lex (state escapedstate : lexstate) (quoted : bool)
         (token : string) (input : string) : result (list string) :=
  match input with
  | EmptyString =>
      match state with
      | St_space | St_word =>
          (* end of file: the token built so far, unless it is empty and
             unquoted, which ends the iteration *)
          if negb quoted && negb (nonempty token) then Ok []
          else Ok [token]
      | St_quote _ => Raise (ValueError "No closing quotation")
      | St_escape => Raise (ValueError "No escaped character")
      end
  | String nextchar rest =>
      match state with
      | St_space =>
          if is_whitespace nextchar then
            if nonempty token || quoted
            then cons_token token (lex St_space St_space false EmptyString rest)
            else lex St_space escapedstate quoted token rest
          else if is_escape nextchar then
            lex St_escape St_word quoted token rest
          else if is_quote nextchar then
            lex (St_quote nextchar) escapedstate quoted token rest
          else
            lex St_word escapedstate quoted (String nextchar EmptyString) rest
      | St_quote q =>
          if Ascii.eqb nextchar q then
            lex St_word escapedstate true token rest
          else if is_escape nextchar && is_escapedquote q then
            lex St_escape (St_quote q) true token rest
          else
            lex (St_quote q) escapedstate true (push token nextchar) rest
      | St_escape =>
          let token' :=
            match escapedstate with
            | St_quote q =>
                if negb (Ascii.eqb nextchar escape)
                   && negb (Ascii.eqb nextchar q)
                then push token escape else token
            | _ => token
            end in
          lex escapedstate escapedstate quoted (push token' nextchar) rest
      | St_word =>
          if is_whitespace nextchar then
            if nonempty token || quoted
            then cons_token token (lex St_space St_space false EmptyString rest)
            else lex St_space escapedstate quoted token rest
          else if is_quote nextchar then
            lex (St_quote nextchar) escapedstate quoted token rest
          else if is_escape nextchar then
            lex St_escape St_word quoted token rest
          else
            lex St_word escapedstate quoted (push token nextchar) rest
      end
  end.

Definition split (s : string) : result (list string) :=
  lex St_space St_space false EmptyString s.

End Shlex.

(* ===================================================================== *)
(** ** The world the bot acts on *)

(** One call [web_client.chat_postMessage(channel=..., text=...)]. *)
Record Sent : Type := mkSent {
  via : nat;                      (* the web client the call went to *)
  to_channel : option string;
  text : option string
}.

Definition kwargs : Type := PyDict.dict string.

(** - [channel]: the attribute [bot.channel]; [None] while it is not set.
    - [web_client]: the attribute [bot.web_client], [None] after
      [__init__].
    - [message_queue]: the class attribute [Slackish.message_queue].
    - [outbox]: the calls made to [chat_postMessage], oldest first.
    - [calls]: a record of the handler calls [cmd_function( **kwargs )]
      made by the dispatcher (command key and keyword arguments); the
      program never reads it. *)
Record World : Type := mkWorld {
  channel : option (option string);
  web_client : option nat;
  message_queue : list string;
  outbox : list Sent;
  calls : list (string * kwargs)
}.

(** A computation: runs on a world, leaves a world (also when it raises)
    and returns or raises. *)
Definition M (A : Type) : Type := World -> World * result A.

Definition ret {A} (a : A) : M A := fun w => (w, Ok a).
Definition raise {A} (e : exn) : M A := fun w => (w, Raise e).
Definition bind {A B} (m : M A) (f : A -> M B) : M B :=
  fun w =>
    match m w with
    | (w', Ok a) => f a w'
    | (w', Raise e) => (w', Raise e)
    end.
Definition lift {A} (r : result A) : M A := fun w => (w, r).

(** [try: body  except C: handler], where [catches] recognises [C]. *)
Definition try_except {A} (body : M A) (catches : exn -> bool)
           (handler : exn -> M A) : M A :=
  fun w =>
    match body w with
    | (w', Raise e) => if catches e then handler e w' else (w', Raise e)
    | r => r
    end.

Notation "x <- m ;; k" := (bind m (fun x => k))
  (at level 61, m at next level, right associativity).
Notation "m ;;; k" := (bind m (fun _ => k))
  (at level 61, right associativity).

(** What a command function does when it is called: how it leaves the
    message queue (a call of [Slackish.send] appends to it), the texts it
    posts itself through [bot.post], and the exception it raises, if any.
    It may depend on the keyword arguments and on the queue it finds. *)
Record outcome : Type := mkOutcome {
  queue_after : list string;
  posted : list (option string);
  raised : option exn
}.

Definition handler : Type := kwargs -> list string -> outcome.

(** A Python function as [Command] sees it. *)
Record PyFunction : Type := mkPyFunction {
  fn_name : string;               (* [fn.__name__] *)
  fn_varnames : list string;      (* [fn.__code__.co_varnames] *)
  fn_doc : option string;         (* [fn.__doc__] *)
  fn_body : handler
}.

(** A registry entry [{'cmd': ..., 'argnames': ..., 'help': ...}]. *)
Record descriptor : Type := mkDescriptor {
  cmd : handler;
  argnames : list string;
  help : option string
}.

Module Command.

(** [Command.__init__(self, fn)], as far as the registry goes. *)
Definition __init__ (fn : PyFunction) (registry : PyDict.dict descriptor)
  : PyDict.dict descriptor :=
  PyDict.set (fn_name fn)
             {| cmd := fn_body fn;
                argnames := fn_varnames fn;
                help := fn_doc fn |}
             registry.

(** Decorating the functions of a module one after the other. *)
Definition register_all (fns : list PyFunction)
           (registry : PyDict.dict descriptor) : PyDict.dict descriptor :=
  fold_left (fun reg fn => __init__ fn reg) fns registry.

End Command.

Module Slackish.

(** The attributes [__init__] sets from its arguments and that event
    processing only reads. *)
Record Bot : Type := mkBot {
  token : option string;
  MENTION_REGEX : Re.regex;
  BOT_ID : option string;
  registry : PyDict.dict descriptor
}.

Definition default_error_message : string := "Something went wrong!".

(** The text of the default of [MENTION_REGEX]. *)
Definition default_MENTION_REGEX_text : string := "^<@(|[WU].+?)>(.*)".

(** The default pattern, compiled: start of text, the characters [<] and
    [@], group 1 (empty, or one of W and U followed by a lazy run of one
    or more characters), the character [>], group 2 (a greedy run of
    characters). *)
Definition default_MENTION_REGEX : Re.regex :=
  Re.Seq Re.Bol
    (Re.Seq (Re.Atom (Re.Lit "<"))
      (Re.Seq (Re.Atom (Re.Lit "@"))
        (Re.Seq
          (Re.Group 1
            (Re.Alt Re.Eps
              (Re.Seq (Re.Atom (Re.Class false ["W"; "U"]%char))
                      (Re.Repeat false true Re.Dot))))
          (Re.Seq (Re.Atom (Re.Lit ">"))
                  (Re.Group 2 (Re.Repeat true false Re.Dot)))))).

(** [Slackish(registry, SLACK_BOT_TOKEN=..., MENTION_REGEX=..., BOT_ID=...)];
    a keyword that is not passed is [None] here. *)
Definition __init__ (registry : PyDict.dict descriptor)
           (SLACK_BOT_TOKEN : option string)
           (MENTION_REGEX_kw : option Re.regex)
           (BOT_ID_kw : option string) : Bot :=
  {| token := SLACK_BOT_TOKEN;
     MENTION_REGEX :=
       match MENTION_REGEX_kw with
       | Some r => r
       | None => default_MENTION_REGEX
       end;
     BOT_ID := BOT_ID_kw;
     registry := registry |}.

(** The world right after [__init__]: no channel yet, [web_client] is
    [None]. *)
Definition initial_world (queue : list string) : World :=
  {| channel := None; web_client := None; message_queue := queue;
     outbox := []; calls := [] |}.

(** [Slackish.send(message)] *)
Definition send (message : string) : M unit :=
  fun w =>
    ({| channel := channel w; web_client := web_client w;
        message_queue := message_queue w ++ [message];
        outbox := outbox w; calls := calls w |}, Ok tt).

Definition parse_direct_mention (self : Bot) (message_text : string)
  : result (option string * option string) :=
  match Re.search (MENTION_REGEX self) message_text with
  | Some matches =>
      match Re.group matches 1 with
      | Raise e => Raise e
      | Ok g1 =>
          match Re.group matches 2 with
          | Raise e => Raise e
          | Ok None =>
              Raise (AttributeError
                       "'NoneType' object has no attribute 'strip'")
          | Ok (Some g2) => Ok (g1, Some (PyStr.strip g2))
          end
      end
  | None => Ok (None, None)
  end.

Definition option_string_eqb (a b : option string) : bool :=
  match a, b with
  | Some x, Some y => String.eqb x y
  | None, None => true
  | _, _ => false
  end.

(** [slack_event] is the dictionary of the event's fields. *)
Definition parse_bot_commands (self : Bot) (slack_event : PyDict.dict string)
  : result (option string * option string) :=
  if negb (PyDict.contains "subtype" slack_event) then
    match PyDict.get "text" slack_event with
    | None => Raise (KeyError "text")
    | Some message_text =>
        match parse_direct_mention self message_text with
        | Raise e => Raise e
        | Ok (user_id, message) =>
            if option_string_eqb user_id (BOT_ID self) then
              match PyDict.get "channel" slack_event with
              | None => Raise (KeyError "channel")
              | Some c => Ok (message, Some c)
              end
            else Ok (None, None)
        end
    end
  else Ok (None, None).

(** [zip(it, it)] over one iterator: two [next] calls per pair; a first
    element without a second is consumed and lost. *)
Fixpoint zip_self (alist : list string) : list (string * string) :=
  match alist with
  | k :: v :: rest => (k, v) :: zip_self rest
  | _ => []
  end.

Definition list_to_dict (alist : list string) : kwargs :=
  PyDict.of_pairs (zip_self alist).

Definition post (message : option string) : M unit :=
  fun w =>
    match web_client w with
    | None =>
        (w, Raise (AttributeError
               "'NoneType' object has no attribute 'chat_postMessage'"))
    | Some client =>
        match channel w with
        | None =>
            (w, Raise (AttributeError
                   "'Slackish' object has no attribute 'channel'"))
        | Some ch =>
            ({| channel := channel w; web_client := web_client w;
                message_queue := message_queue w;
                outbox := outbox w ++ [mkSent client ch message];
                calls := calls w |}, Ok tt)
        end
    end.

Definition error (error_message : option string) : M unit :=
  fun w =>
    match web_client w with
    | None =>
        (w, Raise (AttributeError
               "'NoneType' object has no attribute 'chat_postMessage'"))
    | Some client =>
        match channel w with
        | None =>
            (w, Raise (AttributeError
                   "'Slackish' object has no attribute 'channel'"))
        | Some ch =>
            let shown :=
              match error_message with
              | Some (String c s) => String c s
              | _ => default_error_message
              end in
            ({| channel := channel w; web_client := web_client w;
                message_queue := message_queue w;
                outbox := outbox w ++
                          [mkSent client ch (Some ("Error: " ++ shown)%string)];
                calls := calls w |}, Ok tt)
        end
    end.

(** [for x in xs: body(x)] *)
Fixpoint for_each {A} (xs : list A) (body : A -> M unit) : M unit :=
  match xs with
  | [] => ret tt
  | x :: xs' => body x ;;; for_each xs' body
  end.

Definition cmd_help (self : Bot) (command : option string) : M unit :=
  match command with
  | Some (String c s) =>
      match PyDict.get (String c s) (registry self) with
      | None => raise (KeyError (String c s))
      | Some d => post (help d)
      end
  | _ =>
      for_each (PyDict.keys (registry self))
        (fun cmd_name =>
           match PyDict.get cmd_name (registry self) with
           | None => raise (KeyError cmd_name)
           | Some d => post (help d)
           end)
  end.

Definition flush (message_queue : list string) : M unit :=
  for_each message_queue (fun message => post (Some message)).

(** The call [cmd_function( **kwargs )]: it is noted in [calls], the
    function leaves the queue as it says, posts what it posts, and
    raises if it raises. *)
Definition call (command_key : string) (cmd_function : handler)
           (kw : kwargs) : M unit :=
  fun w =>
    let o := cmd_function kw (message_queue w) in
    let w1 := {| channel := channel w; web_client := web_client w;
                 message_queue := queue_after o;
                 outbox := outbox w;
                 calls := calls w ++ [(command_key, kw)] |} in
    (for_each (posted o) post ;;;
     match raised o with
     | Some e => raise e
     | None => ret tt
     end) w1.

Definition command_to_fn_call (self : Bot) (command : string) : M unit :=
  command_words <- lift (Shlex.split command) ;;
  match command_words with
  | [] => raise (IndexError "list index out of range")
  | first :: others =>
      let command_key := PyStr.lower first in
      try_except
        (match PyDict.get command_key (registry self) with
         | None => raise (KeyError command_key)
         | Some d =>
             let kw := list_to_dict others in
             call command_key (cmd d) kw
         end)
        is_KeyError
        (fun KE => error (Some "Invalid command!") ;;; cmd_help self None)
  end.

(** The payload of a [message] event. *)
Record Payload : Type := mkPayload {
  data : PyDict.dict string;
  payload_web_client : nat;
  payload_rtm_client : nat
}.

Definition set_channel_and_client (ch : option string) (client : nat)
  : M unit :=
  fun w =>
    ({| channel := Some ch; web_client := Some client;
        message_queue := message_queue w;
        outbox := outbox w; calls := calls w |}, Ok tt).

Definition get_queue : M (list string) :=
  fun w => (w, Ok (message_queue w)).

(** [Slackish.message_queue = []] *)
Definition reset_queue : M unit :=
  fun w =>
    ({| channel := channel w; web_client := web_client w;
        message_queue := [];
        outbox := outbox w; calls := calls w |}, Ok tt).

Definition fallback_message : string := "I'm sorry, I don't understand! ".

(** The last two statements of [handle]:
    [bot.flush(Slackish.message_queue)] and
    [Slackish.message_queue = []]. *)
Definition flush_and_reset : M unit :=
  q <- get_queue ;; flush q ;;; reset_queue.

(** [handle( **payload )].  The singleton [bot = Slackish()] is the
    argument [bot]; printing the payload and logging leave no trace in the
    world. *)
Definition handle (bot : Bot) (payload : Payload) : M unit :=
  parsed <- lift (parse_bot_commands bot (data payload)) ;;
  let '(command, chan) := parsed in
  match command with
  | Some (String c s) =>
      set_channel_and_client chan (payload_web_client payload) ;;;
      try_except (command_to_fn_call bot (String c s))
                 is_Exception
                 (fun e => post (Some fallback_message) ;;;
                           cmd_help bot None) ;;;
      flush_and_reset
  | _ => ret tt
  end.

End Slackish.

(* ===================================================================== *)
(** ** Notions used in the statements *)

(** The world after further calls of [chat_postMessage]. *)
Definition add_sent (w : World) (l : list Sent) : World :=
  {| channel := channel w; web_client := web_client w;
     message_queue := message_queue w;
     outbox := outbox w ++ l; calls := calls w |}.

(** The world once the queue has been emptied. *)
Definition with_empty_queue (w : World) : World :=
  {| channel := channel w; web_client := web_client w;
     message_queue := [];
     outbox := outbox w; calls := calls w |}.

(** The registry entry [Command] builds for a function. *)
Definition descriptor_of (fn : PyFunction) : descriptor :=
  {| cmd := fn_body fn; argnames := fn_varnames fn; help := fn_doc fn |}.

(** The last function of a list that bears a given name. *)
Fixpoint last_named (name : string) (fns : list PyFunction)
  : option PyFunction :=
  match fns with
  | [] => None
  | fn :: fns' =>
      match last_named name fns' with
      | Some g => Some g
      | None => if String.eqb (fn_name fn) name then Some fn else None
      end
  end.

(** The help dump: one post per registry entry, in registry order. *)
Definition help_dump (self : Slackish.Bot) (client : nat)
           (ch : option string) : list Sent :=
  map (fun kd => mkSent client ch (help (snd kd))) (Slackish.registry self).

(** The posts of [cmd_help()]: it walks the keys of the registry and posts
    the help text found under each. *)
Definition help_posts (self : Slackish.Bot) (client : nat)
           (ch : option string) : list Sent :=
  map (fun k => mkSent client ch
                  match PyDict.get k (Slackish.registry self) with
                  | Some d => help d
                  | None => None
                  end)
      (PyDict.keys (Slackish.registry self)).

(** The posts of a flush: one per queued message, in queue order. *)
Definition flush_posts (client : nat) (ch : option string)
           (queue : list string) : list Sent :=
  map (fun m => mkSent client ch (Some m)) queue.

(** Keys of a dictionary are pairwise distinct. *)
Definition well_formed {V} (d : PyDict.dict V) : Prop :=
  NoDup (PyDict.keys d).

(** A world in which [bot.web_client] and [bot.channel] are set. *)
Definition ready (client : nat) (ch : option string) (w : World) : Prop :=
  web_client w = Some client /\ channel w = Some ch.

(** The world right after a command function was called with [kw] and
    left the queue as its outcome [o] says (its own posts not yet made). *)
Definition invoked (w : World) (command_key : string) (kw : kwargs)
           (o : outcome) : World :=
  {| channel := channel w; web_client := web_client w;
     message_queue := queue_after o;
     outbox := outbox w;
     calls := calls w ++ [(command_key, kw)] |}.

(** The posts a command function makes itself. *)
Definition own_posts (client : nat) (ch : option string) (o : outcome)
  : list Sent :=
  map (fun m => mkSent client ch m) (posted o).

(** The world in which [handle] dispatches: channel and client recorded. *)
Definition receiving (w : World) (ch : option string) (client : nat)
  : World :=
  {| channel := Some ch; web_client := Some client;
     message_queue := message_queue w;
     outbox := outbox w; calls := calls w |}.

Definition invalid_command_post (client : nat) (ch : option string) : Sent :=
  mkSent client ch (Some "Error: Invalid command!").

Definition fallback_post (client : nat) (ch : option string) : Sent :=
  mkSent client ch (Some Slackish.fallback_message).

(** The handler the dispatcher runs when the command key is not found. *)
Definition on_KeyError (self : Slackish.Bot) : exn -> M unit :=
  fun _ => Slackish.error (Some "Invalid command!") ;;;
           Slackish.cmd_help self None.

(** What [handle] runs under its [except Exception]. *)
Definition on_Exception (self : Slackish.Bot) : exn -> M unit :=
  fun _ => Slackish.post (Some Slackish.fallback_message) ;;;
           Slackish.cmd_help self None.

(** The text up to the first newline, which is as far as a run of
    [.] goes. *)
Fixpoint first_line (s : string) : string :=
  match s with
  | EmptyString => EmptyString
  | String c s' =>
      if Ascii.eqb c Re.newline then EmptyString else String c (first_line s')
  end.

Definition gt : ascii := ">"%char.

(** The text before the first [>] and the text after it, when a [>] comes
    before any newline. *)
Fixpoint until_gt (s : string) : option (string * string) :=
  match s with
  | EmptyString => None
  | String c s' =>
      if Ascii.eqb c gt then Some (EmptyString, s')
      else if Ascii.eqb c Re.newline then None
      else match until_gt s' with
           | Some (p, r) => Some (String c p, r)
           | None => None
           end
  end.

Definition is_WU (c : ascii) : bool :=
  existsb (Ascii.eqb c) ["W"; "U"]%char.

(** What the default mention pattern finds in a text, read off the pattern:
    the identity between [<@] and [>], and the rest of the line. *)
Definition mention_spec (text : string) : option (string * string) :=
  match text with
  | String a (String b (String c r1)) =>
      if Ascii.eqb a "<" && Ascii.eqb b "@" then
        if Ascii.eqb c gt then Some (EmptyString, first_line r1)
        else if is_WU c then
          match r1 with
          | String d r2 =>
              if Ascii.eqb d Re.newline then None
              else match until_gt r2 with
                   | Some (p, rest) =>
                       Some (String c (String d p), first_line rest)
                   | None => None
                   end
          | EmptyString => None
          end
        else None
      else None
  | _ => None
  end.

(** No character of the text is [>] or a newline. *)
Fixpoint plain (s : string) : bool :=
  match s with
  | EmptyString => true
  | String c s' =>
      negb (Ascii.eqb c gt) && negb (Ascii.eqb c Re.newline) && plain s'
  end.

(** The identities the default pattern can deliver whole: the empty one,
    and W or U followed by one or more characters, none of them [>] or a
    newline. *)
Definition mentionable (id : string) : bool :=
  match id with
  | EmptyString => true
  | String c (String d rest) => is_WU c && plain (String d rest)
  | _ => false
  end.

(** Group 1 of the default pattern. *)
Definition group1 : Re.regex :=
  Re.Group 1
    (Re.Alt Re.Eps
       (Re.Seq (Re.Atom (Re.Class false ["W"; "U"]%char))
               (Re.Repeat false true Re.Dot))).

(** The two parts of the default pattern after group 1 closes. *)
Definition after_group1 (k : Re.cont) : Re.cont :=
  fun pos s c =>
    Re.run (Re.Seq (Re.Atom (Re.Lit gt))
                   (Re.Group 2 (Re.Repeat true false Re.Dot)))
           pos s c k.

(** Every character is one of [shlex]'s whitespace characters. *)
Fixpoint all_whitespace (s : string) : bool :=
  match s with
  | EmptyString => true
  | String c s' => Shlex.is_whitespace c && all_whitespace s'
  end.

(** The lexer has begun a token: it can no longer end with no token. *)
Definition committed (state escapedstate : Shlex.lexstate) (quoted : bool)
           (token : string) : Prop :=
  match state with
  | Shlex.St_space => False
  | Shlex.St_word => Shlex.nonempty token || quoted = true
  | Shlex.St_quote _ => True
  | Shlex.St_escape =>
      match escapedstate with
      | Shlex.St_word | Shlex.St_quote _ => True
      | _ => False
      end
  end.

(** *** A small bot for the examples *)

(** [def ping(): Slackish.send("pong")] *)
Definition ping : PyFunction :=
  {| fn_name := "ping"; fn_varnames := [];
     fn_doc := Some "ping: answers pong";
     fn_body := fun _ queue => mkOutcome (queue ++ ["pong"]) [] None |}.

(** [def setname(name): Slackish.send("hello " + name)]; any other
    keyword is a [TypeError], as for every Python function. *)
Definition setname : PyFunction :=
  {| fn_name := "setname"; fn_varnames := ["name"];
     fn_doc := Some "setname name <value>: greets";
     fn_body := fun kw queue =>
       match kw with
       | [(k, v)] =>
           if String.eqb k "name"
           then mkOutcome (queue ++ [("hello " ++ v)%string]) [] None
           else mkOutcome queue []
                  (Some (TypeError "unexpected keyword argument"))
       | [] => mkOutcome queue []
                 (Some (TypeError "missing 1 required positional argument"))
       | _ => mkOutcome queue []
                (Some (TypeError "unexpected keyword argument"))
       end |}.

(** [def boom(): Slackish.send("working"); return {}["x"]] *)
Definition boom : PyFunction :=
  {| fn_name := "boom"; fn_varnames := [];
     fn_doc := Some "boom: looks up a missing key";
     fn_body := fun _ queue =>
       mkOutcome (queue ++ ["working"]) [] (Some (KeyError "x")) |}.

(** [def crash(): raise ValueError("bad")] *)
Definition crash : PyFunction :=
  {| fn_name := "crash"; fn_varnames := [];
     fn_doc := None;
     fn_body := fun _ queue =>
       mkOutcome queue [] (Some (ValueError "bad")) |}.

(** A function whose name has a capital letter. *)
Definition Ping : PyFunction :=
  {| fn_name := "Ping"; fn_varnames := [];
     fn_doc := Some "Ping: answers Pong";
     fn_body := fun _ queue => mkOutcome (queue ++ ["Pong"]) [] None |}.

(** A second function named [ping]. *)
Definition ping_again : PyFunction :=
  {| fn_name := "ping"; fn_varnames := ["times"];
     fn_doc := Some "ping: answers pong, again";
     fn_body := fun _ queue => mkOutcome (queue ++ ["pong pong"]) [] None |}.

Definition sample_registry : PyDict.dict descriptor :=
  Command.register_all [ping; setname; boom; crash] PyDict.empty.

(** The bot with the default mention pattern and identity [U123]. *)
Definition sample_bot : Slackish.Bot :=
  Slackish.__init__ sample_registry None None (Some "U123").

(** A [message] event carrying [text] on channel [C1]. *)
Definition message_event (text : string) : Slackish.Payload :=
  Slackish.mkPayload [("type", "message"); ("text", text); ("channel", "C1")]
                     7 8.

(* ===================================================================== *)
(** ** The singleton metaclass and the entry of [handle] *)

Module SingletonMeta.

(** [SingletonMeta.__call__(cls, *args, **kwargs)] for a class whose
    instances are built by [construct] (that is [super().__call__]): the
    instance is built on the first call only, every call returns
    [cls._instance].  The state is the attribute [_instance]; an instance
    is truthy.  When the construction raises, [_instance] stays as it
    was. *)
Definition __call__ {Args Inst : Type} (construct : Args -> result Inst)
           (args : Args) (_instance : option Inst)
  : option Inst * result Inst :=
  match _instance with
  | None =>
      match construct args with
      | Ok i => (Some i, Ok i)
      | Raise e => (None, Raise e)
      end
  | Some i => (Some i, Ok i)
  end.

(** A series of calls, each on the [_instance] the one before left. *)
Fixpoint calls_in_turn {Args Inst : Type} (construct : Args -> result Inst)
         (argss : list Args) (_instance : option Inst)
  : option Inst * list (result Inst) :=
  match argss with
  | [] => (_instance, [])
  | args :: argss' =>
      let '(i1, r) := __call__ construct args _instance in
      let '(i2, rs) := calls_in_turn construct argss' i1 in
      (i2, r :: rs)
  end.

End SingletonMeta.

(** The arguments of a call [Slackish(...)]: the positional [registry],
    which [__init__] requires, and the three keywords it reads. *)
Record SlackishArgs : Type := mkSlackishArgs {
  arg_registry : option (PyDict.dict descriptor);
  arg_SLACK_BOT_TOKEN : option string;
  arg_MENTION_REGEX : option Re.regex;
  arg_BOT_ID : option string
}.

(** Building a [Slackish] outside the metaclass: [__init__] raises
    [TypeError] when [registry] is not passed. *)
Definition new_Slackish (args : SlackishArgs) : result Slackish.Bot :=
  match arg_registry args with
  | None =>
      Raise (TypeError
               "__init__() missing 1 required positional argument: 'registry'")
  | Some registry =>
      Ok (Slackish.__init__ registry (arg_SLACK_BOT_TOKEN args)
                            (arg_MENTION_REGEX args) (arg_BOT_ID args))
  end.

(** The call [Slackish()] that [handle] makes. *)
Definition no_args : SlackishArgs :=
  {| arg_registry := None; arg_SLACK_BOT_TOKEN := None;
     arg_MENTION_REGEX := None; arg_BOT_ID := None |}.

(** [handle] as the transport calls it: it first gets the bot from
    [Slackish()], on the [_instance] the program has left. *)
Definition on_message (_instance : option Slackish.Bot)
           (payload : Slackish.Payload) : M unit :=
  match SingletonMeta.__call__ new_Slackish no_args _instance with
  | (_, Ok bot) => Slackish.handle bot payload
  | (_, Raise e) => raise e
  end.

(* ===================================================================== *)
(** ** More notions used in the statements *)

(** A character that [shlex] takes as part of a word: no whitespace, no
    quote, no backslash. *)
Definition word_char (c : ascii) : bool :=
  negb (Shlex.is_whitespace c) && negb (Shlex.is_quote c)
  && negb (Shlex.is_escape c).

Fixpoint word_chars (s : string) : bool :=
  match s with
  | EmptyString => true
  | String c s' => word_char c && word_chars s'
  end.

(** A non-empty word of such characters. *)
Definition plain_word (s : string) : bool :=
  Shlex.nonempty s && word_chars s.

(** Words written one after the other, a space between two of them. *)
Fixpoint join_words (ws : list string) : string :=
  match ws with
  | [] => EmptyString
  | [w] => w
  | w :: ws' => (w ++ String " " (join_words ws'))%string
  end.

(** Words written one after the other, each followed by a space, and
    then [tail]. *)
Fixpoint words_then (ws : list string) (tail : string) : string :=
  match ws with
  | [] => tail
  | w :: ws' => (w ++ String " " (words_then ws' tail))%string
  end.

(** No character of the text is a single quote. *)
Fixpoint no_squote (s : string) : bool :=
  match s with
  | EmptyString => true
  | String c s' => negb (Ascii.eqb c Shlex.squote) && no_squote s'
  end.

(** The value of the last pair that has the key [k]. *)
Fixpoint last_value (k : string) (ps : list (string * string))
  : option string :=
  match ps with
  | [] => None
  | (k', v) :: ps' =>
      match last_value k ps' with
      | Some x => Some x
      | None => if String.eqb k' k then Some v else None
      end
  end.

(** Every command function of the registry raises, if at all, inside
    [Exception]. *)
Definition raises_only_Exceptions (registry : PyDict.dict descriptor)
  : Prop :=
  forall k d kw queue e,
    PyDict.get k registry = Some d ->
    raised (cmd d kw queue) = Some e ->
    is_Exception e = true.

(** No character of the text is a newline. *)
Fixpoint one_line (s : string) : bool :=
  match s with
  | EmptyString => true
  | String c s' => negb (Ascii.eqb c Re.newline) && one_line s'
  end.

(** A bot that knows [quit] besides the commands of the sample registry. *)
Definition quit_bot_registry (quit_fn : PyFunction)
  : PyDict.dict descriptor :=
  Command.register_all [quit_fn] sample_registry.

(** [def quit(): Slackish.send("bye"); raise SystemExit] *)
Definition quit : PyFunction :=
  {| fn_name := "quit"; fn_varnames := [];
     fn_doc := Some "quit: stops the bot";
     fn_body := fun _ queue =>
       mkOutcome (queue ++ ["bye"]) [] (Some (NonException "SystemExit")) |}.

(* ===================================================================== *)
(** ** Trimming and capturing, stated apart from the code *)








(** Group [n] lies on every way through the pattern: it is a group of the
    pattern that no alternative goes around.  (A repetition is over one
    character and holds no group.) *)
Fixpoint always_captures (n : nat) (r : Re.regex) : bool :=
  match r with
  | Re.Group k r' => Nat.eqb n k || always_captures n r'
  | Re.Seq r1 r2 => always_captures n r1 || always_captures n r2
  | Re.Alt r1 r2 => always_captures n r1 && always_captures n r2
  | _ => false
  end.

(** A pattern whose second group is optional: [@], group 1 (one or more
    characters other than a space), and then either a space and group 2
    (the rest of the line) or nothing. *)
Definition optional_remainder_REGEX : Re.regex :=
  Re.Seq Re.Bol
    (Re.Seq (Re.Atom (Re.Lit "@"))
      (Re.Seq (Re.Group 1 (Re.Repeat true true (Re.Class true [" "%char])))
              (Re.Alt (Re.Seq (Re.Atom (Re.Lit " "))
                              (Re.Group 2 (Re.Repeat true false Re.Dot)))
                      Re.Eps))).

(* ===================================================================== *)
(** ** Dictionaries *)

Section DictFacts.
Context {V : Type}.
Implicit Types (d : PyDict.dict V) (k : string) (v : V).

Lemma get_set_same k v d : PyDict.get k (PyDict.set k v d) = Some v.
Proof.
  induction d as [|[k' v'] d IH]; simpl.
  - now rewrite String.eqb_refl.
  - destruct (String.eqb k k') eqn:E; simpl; rewrite E; auto.
Qed.

Lemma get_set_other k k' v d :
  k <> k' -> PyDict.get k' (PyDict.set k v d) = PyDict.get k' d.
Proof.
  intros Hne. induction d as [|[k0 v0] d IH]; simpl.
  - destruct (String.eqb k' k) eqn:E; auto.
    apply String.eqb_eq in E. congruence.
  - destruct (String.eqb k k0) eqn:E; simpl.
    + apply String.eqb_eq in E. subst k0.
      destruct (String.eqb k' k) eqn:E'; auto.
      apply String.eqb_eq in E'. congruence.
    + now rewrite IH.
Qed.

Lemma get_in_keys k d : In k (PyDict.keys d) -> PyDict.get k d <> None.
Proof.
  induction d as [|[k' v'] d IH]; simpl; [tauto|].
  intros [->|Hin].
  - now rewrite String.eqb_refl.
  - destruct (String.eqb k k'); [discriminate | auto].
Qed.

Lemma get_absent k d : ~ In k (PyDict.keys d) -> PyDict.get k d = None.
Proof.
  induction d as [|[k' v'] d IH]; simpl; auto.
  intros Hn. destruct (String.eqb k k') eqn:E.
  - apply String.eqb_eq in E. subst. tauto.
  - apply IH. tauto.
Qed.

Lemma keys_set k v d :
  PyDict.keys (PyDict.set k v d) =
  if PyDict.contains k d then PyDict.keys d else PyDict.keys d ++ [k].
Proof.
  unfold PyDict.contains.
  induction d as [|[k' v'] d IH]; simpl; auto.
  destruct (String.eqb k k') eqn:E; simpl; auto.
  unfold PyDict.keys in *. rewrite IH.
  now destruct (PyDict.get k d).
Qed.

(** Assignment keeps the keys distinct. *)
Lemma set_well_formed k v d :
  well_formed d -> well_formed (PyDict.set k v d).
Proof.
  unfold well_formed. intros Hd. rewrite keys_set.
  unfold PyDict.contains. destruct (PyDict.get k d) eqn:E; auto.
  apply NoDup_app; auto.
  - constructor; [simpl; tauto | constructor].
  - intros x Hin [<-|[]]. apply get_in_keys in Hin. congruence.
Qed.

(** On a well-formed dictionary, looking each key up walks the entries. *)
Lemma map_get_keys {B} (f : option V -> B) d :
  well_formed d ->
  map (fun k => f (PyDict.get k d)) (PyDict.keys d) =
  map (fun kv => f (Some (snd kv))) d.
Proof.
  unfold well_formed.
  induction d as [|[k v] d IH]; simpl; auto.
  intros Hnd. inversion Hnd as [|? ? Hnotin Hnd']; subst.
  rewrite String.eqb_refl. f_equal.
  rewrite <- IH by assumption.
  apply map_ext_in. intros a Ha.
  destruct (String.eqb a k) eqn:E; auto.
  apply String.eqb_eq in E. subst. contradiction.
Qed.

End DictFacts.

(* ===================================================================== *)
(** ** Posting *)

Lemma add_sent_nil w : add_sent w [] = w.
Proof. destruct w. unfold add_sent. simpl. now rewrite app_nil_r. Qed.

Lemma add_sent_app w l1 l2 :
  add_sent (add_sent w l1) l2 = add_sent w (l1 ++ l2).
Proof. unfold add_sent. simpl. now rewrite app_assoc. Qed.

Section Posting.
Variables (client : nat) (ch : option string).

Lemma ready_add_sent w l : ready client ch w -> ready client ch (add_sent w l).
Proof. intros [? ?]. split; assumption. Qed.

Lemma post_run w message :
  ready client ch w ->
  Slackish.post message w = (add_sent w [mkSent client ch message], Ok tt).
Proof.
  intros [Hc Hch]. unfold Slackish.post, add_sent.
  destruct w; simpl in *. now subst.
Qed.

Lemma error_run w message :
  ready client ch w ->
  Slackish.error (Some message) w =
  (add_sent w [mkSent client ch
                 (Some ("Error: " ++
                        match message with
                        | EmptyString => Slackish.default_error_message
                        | _ => message
                        end)%string)],
   Ok tt).
Proof.
  intros [Hc Hch]. unfold Slackish.error, add_sent.
  destruct w; simpl in *. subst. now destruct message.
Qed.

(** A loop whose body posts one text per element. *)
Lemma for_each_post {A} (xs : list A) (body : A -> M unit)
      (f : A -> option string) :
  (forall x, In x xs -> body x = Slackish.post (f x)) ->
  forall w, ready client ch w ->
    Slackish.for_each xs body w =
    (add_sent w (map (fun x => mkSent client ch (f x)) xs), Ok tt).
Proof.
  induction xs as [|x xs IH]; intros Hbody w Hw; simpl.
  - now rewrite add_sent_nil.
  - unfold bind. rewrite (Hbody x) by (now left).
    rewrite post_run by assumption.
    rewrite IH; auto using ready_add_sent.
    + now rewrite add_sent_app.
    + intros y Hy. apply Hbody. now right.
Qed.

Lemma flush_run queue w :
  ready client ch w ->
  Slackish.flush queue w = (add_sent w (flush_posts client ch queue), Ok tt).
Proof.
  intros Hw. unfold Slackish.flush, flush_posts.
  now apply for_each_post.
Qed.

(** [cmd_help()] posts the help text of every key of the registry. *)
Lemma cmd_help_all_run self w :
  ready client ch w ->
  Slackish.cmd_help self None w =
  (add_sent w (help_posts self client ch), Ok tt).
Proof.
  intros Hw. unfold Slackish.cmd_help.
  apply for_each_post with
    (f := fun k => match PyDict.get k (Slackish.registry self) with
                   | Some d => help d
                   | None => None
                   end); auto.
  intros k Hk. apply get_in_keys in Hk.
  now destruct (PyDict.get k (Slackish.registry self)).
Qed.

(** With distinct keys that is one post per registry entry. *)
Lemma help_posts_dump self :
  well_formed (Slackish.registry self) ->
  help_posts self client ch = help_dump self client ch.
Proof.
  intros Hwf. unfold help_posts, help_dump.
  apply (map_get_keys
           (fun o => mkSent client ch
                       match o with Some d => help d | None => None end));
    assumption.
Qed.

Lemma flush_and_reset_run w :
  ready client ch w ->
  Slackish.flush_and_reset w =
  (with_empty_queue
     (add_sent w (flush_posts client ch (message_queue w))), Ok tt).
Proof.
  intros Hw. unfold Slackish.flush_and_reset, bind, Slackish.get_queue.
  now rewrite flush_run.
Qed.

End Posting.

Lemma flush_and_reset_empty w :
  message_queue w = [] -> Slackish.flush_and_reset w = (w, Ok tt).
Proof.
  intros Hq. unfold Slackish.flush_and_reset, bind, Slackish.get_queue.
  rewrite Hq. simpl. unfold Slackish.reset_queue.
  destruct w; simpl in *. now subst.
Qed.

(* ===================================================================== *)
(** ** The dispatcher *)

Lemma ready_invoked client ch w key kw o :
  ready client ch w -> ready client ch (invoked w key kw o).
Proof. intros [? ?]. split; assumption. Qed.

Lemma ready_receiving w ch client : ready client ch (receiving w ch client).
Proof. split; reflexivity. Qed.

Lemma call_run client ch key (h : handler) kw w :
  ready client ch w ->
  Slackish.call key h kw w =
  (add_sent (invoked w key kw (h kw (message_queue w)))
            (own_posts client ch (h kw (message_queue w))),
   match raised (h kw (message_queue w)) with
   | Some e => Raise e
   | None => Ok tt
   end).
Proof.
  intros Hw. unfold Slackish.call.
  set (o := h kw (message_queue w)).
  fold (invoked w key kw o). unfold bind.
  rewrite (for_each_post client ch (posted o) Slackish.post (fun m => m));
    auto using ready_invoked.
  fold (own_posts client ch o).
  now destruct (raised o).
Qed.

Lemma on_KeyError_run client ch self e w :
  ready client ch w ->
  on_KeyError self e w =
  (add_sent w
     (invalid_command_post client ch ::
      help_posts self client ch),
   Ok tt).
Proof.
  intros Hw. unfold on_KeyError, bind.
  rewrite (error_run client ch) by assumption.
  rewrite (cmd_help_all_run client ch) by (apply ready_add_sent; assumption).
  now rewrite add_sent_app.
Qed.

(** Dispatch of a command line whose key is registered: one call of the
    command function, under the dispatcher's [except KeyError]. *)
Lemma dispatch_known self command first others d :
  Shlex.split command = Ok (first :: others) ->
  PyDict.get (PyStr.lower first) (Slackish.registry self) = Some d ->
  forall w,
    Slackish.command_to_fn_call self command w =
    try_except
      (Slackish.call (PyStr.lower first) (cmd d) (Slackish.list_to_dict others))
      is_KeyError (on_KeyError self) w.
Proof.
  intros Hsplit Hget w.
  unfold Slackish.command_to_fn_call, bind, lift.
  rewrite Hsplit, Hget. reflexivity.
Qed.

Lemma dispatch_unknown_run client ch self command first others w :
  Shlex.split command = Ok (first :: others) ->
  PyDict.get (PyStr.lower first) (Slackish.registry self) = None ->
  ready client ch w ->
  Slackish.command_to_fn_call self command w =
  (add_sent w
     (invalid_command_post client ch ::
      help_posts self client ch),
   Ok tt).
Proof.
  intros Hsplit Hget Hw.
  unfold Slackish.command_to_fn_call, bind, lift.
  rewrite Hsplit, Hget. unfold try_except, raise. simpl.
  apply (on_KeyError_run client ch self (KeyError (PyStr.lower first)));
    assumption.
Qed.

Lemma dispatch_empty self command w :
  Shlex.split command = Ok [] ->
  Slackish.command_to_fn_call self command w =
  (w, Raise (IndexError "list index out of range")).
Proof.
  intros Hsplit. unfold Slackish.command_to_fn_call, bind, lift.
  now rewrite Hsplit.
Qed.

(* ===================================================================== *)
(** ** The event handler *)

Lemma handle_discard bot payload command chan w :
  Slackish.parse_bot_commands bot (Slackish.data payload) = Ok (command, chan) ->
  PyStr.truthy command = false ->
  Slackish.handle bot payload w = (w, Ok tt).
Proof.
  intros Hparse Hfalsy. unfold Slackish.handle, bind, lift.
  rewrite Hparse. destruct command as [[|c s]|]; try discriminate; reflexivity.
Qed.

Lemma handle_dispatch bot payload c s chan w :
  Slackish.parse_bot_commands bot (Slackish.data payload)
  = Ok (Some (String c s), chan) ->
  Slackish.handle bot payload w =
  (try_except (Slackish.command_to_fn_call bot (String c s))
              is_Exception (on_Exception bot) ;;;
   Slackish.flush_and_reset)
    (receiving w chan (Slackish.payload_web_client payload)).
Proof.
  intros Hparse. unfold Slackish.handle, bind at 1, lift.
  rewrite Hparse. reflexivity.
Qed.

Lemma on_Exception_run client ch self e w :
  ready client ch w ->
  on_Exception self e w =
  (add_sent w (fallback_post client ch :: help_posts self client ch), Ok tt).
Proof.
  intros Hw. unfold on_Exception, bind.
  rewrite (post_run client ch) by assumption.
  rewrite (cmd_help_all_run client ch) by (apply ready_add_sent; assumption).
  now rewrite add_sent_app.
Qed.

(** Dispatch of a registered command, by what the command function does. *)
Lemma dispatch_known_run client ch self command first others d w :
  Shlex.split command = Ok (first :: others) ->
  PyDict.get (PyStr.lower first) (Slackish.registry self) = Some d ->
  ready client ch w ->
  let kw := Slackish.list_to_dict others in
  let o := cmd d kw (message_queue w) in
  let w1 := invoked w (PyStr.lower first) kw o in
  Slackish.command_to_fn_call self command w =
  match raised o with
  | None => (add_sent w1 (own_posts client ch o), Ok tt)
  | Some e =>
      if is_KeyError e
      then (add_sent w1 (own_posts client ch o ++
                         invalid_command_post client ch ::
                         help_posts self client ch), Ok tt)
      else (add_sent w1 (own_posts client ch o), Raise e)
  end.
Proof.
  intros Hsplit Hget Hw kw o w1.
  rewrite (dispatch_known self command first others d Hsplit Hget).
  unfold try_except. rewrite (call_run client ch) by assumption.
  fold kw. fold o. fold w1.
  destruct (raised o) as [e|]; [|reflexivity].
  destruct (is_KeyError e); [|reflexivity].
  rewrite (on_KeyError_run client ch)
    by (apply ready_add_sent, ready_invoked; assumption).
  now rewrite add_sent_app.
Qed.

(** The dispatcher leaves [bot.web_client] and [bot.channel] alone. *)
Lemma dispatch_keeps_ready client ch self command w w' r :
  ready client ch w ->
  Slackish.command_to_fn_call self command w = (w', r) ->
  ready client ch w'.
Proof.
  intros Hw Hrun.
  destruct (Shlex.split command) as [[|first others]|e] eqn:Hsplit.
  - rewrite dispatch_empty in Hrun by assumption.
    inversion Hrun; subst; assumption.
  - destruct (PyDict.get (PyStr.lower first) (Slackish.registry self))
      as [d|] eqn:Hget.
    + rewrite (dispatch_known_run client ch self command first others d)
        in Hrun by assumption.
      cbv zeta in Hrun.
      destruct (raised _) as [e|]; [destruct (is_KeyError e)|];
        inversion Hrun; subst;
        apply ready_add_sent, ready_invoked; assumption.
    + rewrite (dispatch_unknown_run client ch self command first others)
        in Hrun by assumption.
      inversion Hrun; subst. apply ready_add_sent; assumption.
  - unfold Slackish.command_to_fn_call, bind, lift in Hrun.
    rewrite Hsplit in Hrun. inversion Hrun; subst; assumption.
Qed.

(** Once [handle] has decided to dispatch, what is left of it: whatever
    the dispatcher does short of raising outside [Exception], the queue is
    flushed to the channel and emptied. *)
Lemma handle_after_dispatch client ch self command w w1 r :
  ready client ch w ->
  Slackish.command_to_fn_call self command w = (w1, r) ->
  (try_except (Slackish.command_to_fn_call self command)
              is_Exception (on_Exception self) ;;;
   Slackish.flush_and_reset) w =
  match r with
  | Ok _ =>
      (with_empty_queue
         (add_sent w1 (flush_posts client ch (message_queue w1))), Ok tt)
  | Raise e =>
      if is_Exception e
      then (with_empty_queue
              (add_sent w1 (fallback_post client ch ::
                            help_posts self client ch ++
                            flush_posts client ch (message_queue w1))),
            Ok tt)
      else (w1, Raise e)
  end.
Proof.
  intros Hw Hrun.
  assert (Hw1 : ready client ch w1)
    by (eapply dispatch_keeps_ready; eassumption).
  unfold bind, try_except. rewrite Hrun.
  destruct r as [[]|e].
  - now rewrite (flush_and_reset_run client ch).
  - destruct (is_Exception e); [|reflexivity].
    rewrite (on_Exception_run client ch) by assumption.
    rewrite (flush_and_reset_run client ch)
      by (apply ready_add_sent; assumption).
    rewrite add_sent_app. simpl. reflexivity.
Qed.

(* ===================================================================== *)
(** ** Tokenising to no token at all *)

Lemma push_nonempty token c : Shlex.nonempty (Shlex.push token c) = true.
Proof. now destruct token. Qed.

Lemma cons_token_not_nil t r : Shlex.cons_token t r <> Ok [].
Proof. destruct r; simpl; congruence. Qed.

Lemma lex_whitespace s e :
  all_whitespace s = true ->
  Shlex.lex Shlex.St_space e false EmptyString s = Ok [].
Proof.
  induction s as [|c s IH]; simpl; auto.
  intros H. apply andb_prop in H as [Hc Hs]. rewrite Hc. auto.
Qed.

Lemma lex_committed input :
  forall state e quoted token,
    committed state e quoted token ->
    Shlex.lex state e quoted token input <> Ok [].
Proof.
  induction input as [|c rest IH]; intros state e quoted token Hinv.
  - destruct state; simpl in *; try congruence; try contradiction.
    apply orb_prop in Hinv as [H|H]; rewrite H; simpl;
      try rewrite andb_false_r; congruence.
  - destruct state; simpl in *.
    + contradiction.
    + destruct (Shlex.is_whitespace c).
      * rewrite Hinv. apply cons_token_not_nil.
      * destruct (Shlex.is_quote c); [apply IH; exact I|].
        destruct (Shlex.is_escape c); [apply IH; exact I|].
        apply IH. simpl. now rewrite push_nonempty.
    + destruct (Ascii.eqb c q).
      * apply IH. simpl. apply orb_true_r.
      * destruct (Shlex.is_escape c && Shlex.is_escapedquote q);
          apply IH; exact I.
    + destruct e; try contradiction; apply IH; simpl; auto.
      now rewrite push_nonempty.
Qed.

Lemma split_nil_all_whitespace s :
  Shlex.split s = Ok [] <-> all_whitespace s = true.
Proof.
  unfold Shlex.split. split; [|apply lex_whitespace].
  generalize Shlex.St_space at 2. intros e.
  induction s as [|c s IH]; simpl; auto.
  destruct (Shlex.is_whitespace c); simpl; auto.
  intros H. exfalso. revert H.
  destruct (Shlex.is_escape c); [apply lex_committed; exact I|].
  destruct (Shlex.is_quote c); [apply lex_committed; exact I|].
  apply lex_committed. reflexivity.
Qed.

(* ===================================================================== *)
(** ** Unknown commands, empty commands *)

(** C2.  A command line whose first token, lowercased, is not a key of the
    registry: the dispatcher posts one error message, then one help text per
    registered command, in registry order; it calls no command function
    (the record of calls and the queue are as before) and returns without
    raising. *)
Theorem C2_unknown_command_error_then_help :
  forall self command first others client ch w,
    Shlex.split command = Ok (first :: others) ->
    PyDict.get (PyStr.lower first) (Slackish.registry self) = None ->
    well_formed (Slackish.registry self) ->
    ready client ch w ->
    Slackish.command_to_fn_call self command w =
      (add_sent w (invalid_command_post client ch :: help_dump self client ch),
       Ok tt)
    /\ calls (fst (Slackish.command_to_fn_call self command w)) = calls w
    /\ length (outbox (fst (Slackish.command_to_fn_call self command w)))
       = length (outbox w) + 1 + length (Slackish.registry self).
Proof.
  intros self command first others client ch w Hsplit Hget Hwf Hw.
  rewrite (dispatch_unknown_run client ch self command first others)
    by assumption.
  rewrite (help_posts_dump client ch) by assumption.
  repeat split.
  simpl. rewrite length_app. simpl. unfold help_dump.
  rewrite length_map. lia.
Qed.

(** Registries built by [Command] have distinct keys. *)
Lemma register_all_well_formed fns :
  forall registry,
    well_formed registry ->
    well_formed (Command.register_all fns registry).
Proof.
  induction fns as [|fn fns IH]; intros registry Hwf; [assumption|].
  apply (IH (Command.__init__ fn registry)).
  now apply set_well_formed.
Qed.

Lemma sample_registry_well_formed : well_formed sample_registry.
Proof. apply register_all_well_formed. constructor. Qed.

Lemma C2_unknown_command_witness :
  Slackish.command_to_fn_call sample_bot "frobnicate"
    (receiving (Slackish.initial_world []) (Some "C1") 7) =
  (add_sent (receiving (Slackish.initial_world []) (Some "C1") 7)
     (invalid_command_post 7 (Some "C1") ::
      help_dump sample_bot 7 (Some "C1")),
   Ok tt).
Proof.
  apply (C2_unknown_command_error_then_help
           sample_bot "frobnicate" "frobnicate" [] 7 (Some "C1")).
  - reflexivity.
  - reflexivity.
  - exact sample_registry_well_formed.
  - split; reflexivity.
Defined.

(** C5.  A command line tokenises to no token exactly when it consists of
    whitespace only (the empty line included).  On such a line the
    dispatcher raises [IndexError] and does nothing else; its own
    [except KeyError] does not catch it, the [except Exception] of the
    event handler does. *)
Theorem C5_empty_command_raises_IndexError :
  forall self command,
    (Shlex.split command = Ok [] <-> all_whitespace command = true)
    /\ (Shlex.split command = Ok [] ->
        forall w,
          Slackish.command_to_fn_call self command w =
            (w, Raise (IndexError "list index out of range"))
          /\ is_KeyError (IndexError "list index out of range") = false
          /\ try_except (Slackish.command_to_fn_call self command)
                        is_Exception (on_Exception self) w =
             on_Exception self (IndexError "list index out of range") w).
Proof.
  intros self command. split; [apply split_nil_all_whitespace|].
  intros Hsplit w. rewrite dispatch_empty by assumption.
  repeat split.
  unfold try_except. now rewrite dispatch_empty by assumption.
Qed.

Lemma C5_empty_command_witness :
  Slackish.command_to_fn_call sample_bot "   "
    (receiving (Slackish.initial_world []) (Some "C1") 7) =
  (receiving (Slackish.initial_world []) (Some "C1") 7,
   Raise (IndexError "list index out of range")).
Proof.
  apply (proj2 (C5_empty_command_raises_IndexError sample_bot "   ")).
  reflexivity.
Defined.

(* ===================================================================== *)
(** ** Events that are not commands, and the flush *)

(** C6.  An event that has a [subtype] field: [parse_bot_commands] returns
    [(None, None)] and [handle] returns at once; the world (channel, client,
    queue, posts made, calls made) is what it was. *)
Theorem C6_subtype_event_discarded :
  forall bot payload w,
    PyDict.contains "subtype" (Slackish.data payload) = true ->
    Slackish.parse_bot_commands bot (Slackish.data payload) = Ok (None, None)
    /\ Slackish.handle bot payload w = (w, Ok tt).
Proof.
  intros bot payload w Hsub.
  assert (Hparse : Slackish.parse_bot_commands bot (Slackish.data payload)
                   = Ok (None, None)).
  { unfold Slackish.parse_bot_commands. now rewrite Hsub. }
  split; [assumption|].
  now apply (handle_discard bot payload None None).
Qed.

Lemma C6_subtype_event_witness :
  Slackish.parse_bot_commands sample_bot
    [("subtype", "message_changed"); ("text", "<@U123> ping");
     ("channel", "C1")] = Ok (None, None)
  /\ Slackish.handle sample_bot
       (Slackish.mkPayload
          [("subtype", "message_changed"); ("text", "<@U123> ping");
           ("channel", "C1")] 7 8)
       (Slackish.initial_world ["left over"]) =
     (Slackish.initial_world ["left over"], Ok tt).
Proof.
  apply (C6_subtype_event_discarded sample_bot
           (Slackish.mkPayload
              [("subtype", "message_changed"); ("text", "<@U123> ping");
               ("channel", "C1")] 7 8)).
  reflexivity.
Defined.

(** C4.  The flush at the end of [handle] (the call of [flush] followed by
    the assignment of a new empty list to the queue): in a world where
    client and channel are set, as they are wherever [handle] flushes, each
    queued message is posted once, in order, and the queue is empty
    afterwards; on an empty queue nothing is posted and nothing changes.
    And whenever [handle] dispatches a command and the dispatcher returns or
    raises an [Exception], [handle] ends with the queue empty. *)
Theorem C4_flush_leaves_queue_empty :
  (forall client ch w,
      ready client ch w ->
      Slackish.flush_and_reset w =
        (with_empty_queue
           (add_sent w (flush_posts client ch (message_queue w))), Ok tt)
      /\ message_queue (fst (Slackish.flush_and_reset w)) = [])
  /\ (forall w,
         message_queue w = [] ->
         Slackish.flush_and_reset w = (w, Ok tt))
  /\ (forall bot payload c s chan w w1 r,
         Slackish.parse_bot_commands bot (Slackish.data payload)
           = Ok (Some (String c s), chan) ->
         Slackish.command_to_fn_call bot (String c s)
           (receiving w chan (Slackish.payload_web_client payload)) = (w1, r) ->
         match r with Raise e => is_Exception e = true | Ok _ => True end ->
         snd (Slackish.handle bot payload w) = Ok tt
         /\ message_queue (fst (Slackish.handle bot payload w)) = []).
Proof.
  split; [|split].
  - intros client ch w Hw.
    rewrite (flush_and_reset_run client ch) by assumption. now split.
  - apply flush_and_reset_empty.
  - intros bot payload c s chan w w1 r Hparse Hrun Hr.
    rewrite (handle_dispatch bot payload c s chan) by assumption.
    rewrite (handle_after_dispatch
               (Slackish.payload_web_client payload) chan bot (String c s)
               _ w1 r (ready_receiving _ _ _) Hrun).
    destruct r as [[]|e]; [now split|].
    rewrite Hr. now split.
Qed.

Lemma C4_flush_witness :
  Slackish.flush_and_reset
    {| channel := Some (Some "C1"); web_client := Some 7;
       message_queue := ["one"; "two"]; outbox := []; calls := [] |} =
  ({| channel := Some (Some "C1"); web_client := Some 7;
      message_queue := [];
      outbox := [mkSent 7 (Some "C1") (Some "one");
                 mkSent 7 (Some "C1") (Some "two")];
      calls := [] |}, Ok tt).
Proof.
  apply (proj1 C4_flush_leaves_queue_empty 7 (Some "C1")
           {| channel := Some (Some "C1"); web_client := Some 7;
              message_queue := ["one"; "two"]; outbox := []; calls := [] |}).
  split; reflexivity.
Defined.

(* ===================================================================== *)
(** ** Commands whose function raises *)

(** An event that dispatches to a registered command, by what the command
    function does. *)
Lemma handle_known_run bot payload c s chan first others d w :
  Slackish.parse_bot_commands bot (Slackish.data payload)
    = Ok (Some (String c s), chan) ->
  Shlex.split (String c s) = Ok (first :: others) ->
  PyDict.get (PyStr.lower first) (Slackish.registry bot) = Some d ->
  let client := Slackish.payload_web_client payload in
  let kw := Slackish.list_to_dict others in
  let o := cmd d kw (message_queue w) in
  let w1 := invoked (receiving w chan client) (PyStr.lower first) kw o in
  Slackish.handle bot payload w =
  match raised o with
  | None =>
      (with_empty_queue
         (add_sent w1 (own_posts client chan o ++
                       flush_posts client chan (queue_after o))), Ok tt)
  | Some e =>
      if is_KeyError e then
        (with_empty_queue
           (add_sent w1 (own_posts client chan o ++
                         invalid_command_post client chan ::
                         help_posts bot client chan ++
                         flush_posts client chan (queue_after o))), Ok tt)
      else if is_Exception e then
        (with_empty_queue
           (add_sent w1 (own_posts client chan o ++
                         fallback_post client chan ::
                         help_posts bot client chan ++
                         flush_posts client chan (queue_after o))), Ok tt)
      else (add_sent w1 (own_posts client chan o), Raise e)
  end.
Proof.
  intros Hparse Hsplit Hget client kw o w1.
  rewrite (handle_dispatch bot payload c s chan) by assumption.
  fold client.
  pose proof (dispatch_known_run client chan bot (String c s) first others d
                (receiving w chan client) Hsplit Hget
                (ready_receiving _ _ _)) as Hrun.
  cbv zeta in Hrun. simpl message_queue in Hrun.
  fold kw in Hrun. fold o in Hrun. fold w1 in Hrun.
  destruct (raised o) as [e|].
  - destruct (is_KeyError e) eqn:HK.
    + rewrite (handle_after_dispatch client chan bot (String c s) _ _ _
                 (ready_receiving _ _ _) Hrun).
      rewrite add_sent_app, <- app_assoc. reflexivity.
    + rewrite (handle_after_dispatch client chan bot (String c s) _ _ _
                 (ready_receiving _ _ _) Hrun).
      destruct (is_Exception e); [|reflexivity].
      rewrite add_sent_app. reflexivity.
  - rewrite (handle_after_dispatch client chan bot (String c s) _ _ _
               (ready_receiving _ _ _) Hrun).
    rewrite add_sent_app. reflexivity.
Qed.

(** A command function that raises an [Exception] other than [KeyError]:
    the dispatcher lets it through, [handle] catches it, posts the fallback
    message and the help texts, flushes, and returns. *)
Lemma handler_failure_caught_by_handle
      bot payload c s chan first others d w e :
  Slackish.parse_bot_commands bot (Slackish.data payload)
    = Ok (Some (String c s), chan) ->
  Shlex.split (String c s) = Ok (first :: others) ->
  PyDict.get (PyStr.lower first) (Slackish.registry bot) = Some d ->
  let client := Slackish.payload_web_client payload in
  let kw := Slackish.list_to_dict others in
  let o := cmd d kw (message_queue w) in
  let w1 := invoked (receiving w chan client) (PyStr.lower first) kw o in
  raised o = Some e ->
  is_KeyError e = false ->
  is_Exception e = true ->
  Slackish.command_to_fn_call bot (String c s) (receiving w chan client) =
    (add_sent w1 (own_posts client chan o), Raise e)
  /\ Slackish.handle bot payload w =
     (with_empty_queue
        (add_sent w1 (own_posts client chan o ++
                      fallback_post client chan ::
                      help_posts bot client chan ++
                      flush_posts client chan (queue_after o))), Ok tt).
Proof.
  intros Hparse Hsplit Hget client kw o w1 Hraised HK HE. split.
  - rewrite (dispatch_known_run client chan bot (String c s) first others d)
      by (assumption || apply ready_receiving).
    cbv zeta. simpl message_queue. fold kw. fold o.
    now rewrite Hraised, HK.
  - rewrite (handle_known_run bot payload c s chan first others d)
      by assumption.
    cbv zeta. fold client. fold kw. fold o.
    now rewrite Hraised, HK, HE.
Qed.

(** C1.  The command [boom] is registered and its function raises
    [KeyError].  On the event [<@U123> boom] the error does not reach the
    [except Exception] of [handle]: the dispatcher's own [except KeyError],
    which stands for a command key that is not in the registry, catches it.
    The user gets [Error: Invalid command!] and the help texts, not the
    fallback message; the call of [boom] is on record.  The command
    [crash], whose function raises [ValueError], gets the fallback
    message. *)
Theorem C1_handler_KeyError_reported_as_invalid_command :
  Slackish.handle sample_bot (message_event "<@U123> boom")
                  (Slackish.initial_world []) =
    ({| channel := Some (Some "C1"); web_client := Some 7;
        message_queue := [];
        outbox := invalid_command_post 7 (Some "C1") ::
                  help_dump sample_bot 7 (Some "C1") ++
                  [mkSent 7 (Some "C1") (Some "working")];
        calls := [("boom", [])] |}, Ok tt)
  /\ Slackish.command_to_fn_call sample_bot "boom"
       (receiving (Slackish.initial_world []) (Some "C1") 7) =
     ({| channel := Some (Some "C1"); web_client := Some 7;
         message_queue := ["working"];
         outbox := invalid_command_post 7 (Some "C1") ::
                   help_dump sample_bot 7 (Some "C1");
         calls := [("boom", [])] |}, Ok tt)
  /\ Slackish.handle sample_bot (message_event "<@U123> crash")
                     (Slackish.initial_world []) =
     ({| channel := Some (Some "C1"); web_client := Some 7;
         message_queue := [];
         outbox := fallback_post 7 (Some "C1") ::
                   help_dump sample_bot 7 (Some "C1");
         calls := [("crash", [])] |}, Ok tt).
Proof. repeat split. Qed.

(* ===================================================================== *)
(** ** The default mention pattern *)

Lemma substring_prefix p r :
  substring 0 (String.length p) (p ++ r) = p.
Proof.
  induction p as [|c p IH]; simpl.
  - now destruct r.
  - now rewrite IH.
Qed.

Lemma substring_first_line s :
  substring 0 (String.length (first_line s)) s = first_line s.
Proof.
  induction s as [|c s IH]; simpl; auto.
  destruct (Ascii.eqb c Re.newline); simpl; [reflexivity | now rewrite IH].
Qed.

Lemma until_gt_split s p r :
  until_gt s = Some (p, r) -> s = (p ++ String gt r)%string.
Proof.
  revert p r. induction s as [|c s IH]; simpl; intros p r H; [discriminate|].
  destruct (Ascii.eqb c gt) eqn:Egt.
  - apply Ascii.eqb_eq in Egt. inversion H; subst. reflexivity.
  - destruct (Ascii.eqb c Re.newline); [discriminate|].
    destruct (until_gt s) as [[p' r']|]; [|discriminate].
    inversion H; subst. simpl. f_equal. now apply IH.
Qed.

(** A greedy run of [.] before a continuation that cannot fail takes the
    whole line. *)
Lemma rep_greedy_dot_line (k : Re.cont) :
  (forall pos s c, k pos s c <> None) ->
  forall s pos c,
    exists s',
      s = (first_line s ++ s')%string /\
      Re.rep_greedy Re.Dot pos s c k =
      k (pos + String.length (first_line s)) s' c.
Proof.
  intros Hk. induction s as [|ch s IH]; intros pos c.
  - exists EmptyString. simpl. now rewrite Nat.add_0_r.
  - simpl. destruct (Ascii.eqb ch Re.newline) eqn:E; simpl.
    + exists (String ch s). now rewrite Nat.add_0_r.
    + destruct (IH (S pos) c) as [s' [Hs Hrun]].
      exists s'. split; [now rewrite <- Hs|].
      rewrite Hrun. rewrite Nat.add_succ_r.
      change (S pos + String.length (first_line s))
        with (S (pos + String.length (first_line s))).
      destruct (k (S (pos + String.length (first_line s))) s' c) eqn:Ek;
        [reflexivity|].
      exfalso. eapply Hk. eassumption.
Qed.

(** After group 1: a [>] and the rest of the line as group 2. *)
Lemma after_group1_run pos s c :
  after_group1 Re.accept pos s c =
  match s with
  | String ch s' =>
      if Ascii.eqb ch gt then Some ((2, first_line s') :: c) else None
  | EmptyString => None
  end.
Proof.
  unfold after_group1. simpl. unfold Re.one.
  destruct s as [|ch s']; [reflexivity|].
  simpl. destruct (Ascii.eqb ch gt); [|reflexivity].
  destruct (rep_greedy_dot_line
              (fun pos' s'0 c' =>
                 Re.accept pos' s'0
                   ((2, substring 0 (pos' - S pos) s') :: c'))) with
    (s := s') (pos := S pos) (c := c) as [rest [Hs Hrun]].
  { intros; discriminate. }
  rewrite Hrun. unfold Re.accept. do 3 f_equal.
  replace (S pos + String.length (first_line s') - S pos)
    with (String.length (first_line s')) by lia.
  apply substring_first_line.
Qed.

(** A lazy run of [.] before [>] and the rest of the pattern stops at the
    first [>] of the line. *)
Lemma rep_lazy_until_gt (F : nat -> Re.caps -> Re.caps) :
  forall s pos c,
    Re.rep_lazy Re.Dot pos s c
      (fun pos' s' c' => after_group1 Re.accept pos' s' (F pos' c')) =
    match until_gt s with
    | Some (p, r) => Some ((2, first_line r) :: F (pos + String.length p) c)
    | None => None
    end.
Proof.
  induction s as [|ch s IH]; intros pos c.
  - reflexivity.
  - cbn [Re.rep_lazy until_gt]. rewrite after_group1_run.
    destruct (Ascii.eqb ch gt) eqn:Egt.
    + simpl. now rewrite Nat.add_0_r.
    + unfold Re.atom_matches.
      destruct (Ascii.eqb ch Re.newline); simpl; [reflexivity|].
      rewrite IH. destruct (until_gt s) as [[p r]|]; [|reflexivity].
      simpl. now rewrite Nat.add_succ_r.
Qed.

Lemma group1_run r :
  Re.run group1 2 r [] (after_group1 Re.accept) =
  match mention_spec (String "<" (String "@" r)) with
  | Some (id, rest) => Some [(2, rest); (1, id)]
  | None => None
  end.
Proof.
  unfold group1. cbn [Re.run].
  rewrite after_group1_run.
  destruct r as [|c r1]; [reflexivity|].
  cbn [mention_spec Ascii.eqb Bool.eqb andb].
  destruct (Ascii.eqb c gt) eqn:Egt; [reflexivity|].
  unfold Re.one at 1. unfold Re.atom_matches at 1. cbn [xorb].
  fold (is_WU c).
  destruct (is_WU c); [|reflexivity].
  unfold Re.one. destruct r1 as [|d r2]; [reflexivity|].
  unfold Re.atom_matches.
  destruct (Ascii.eqb d Re.newline); cbn [negb]; [reflexivity|].
  rewrite (rep_lazy_until_gt
             (fun pos' c' =>
                (1, substring 0 (pos' - 2) (String c (String d r2))) :: c')).
  destruct (until_gt r2) as [[p rest]|] eqn:Eu; [|reflexivity].
  apply until_gt_split in Eu. subst r2.
  do 3 f_equal.
  replace (4 + String.length p - 2) with (S (S (String.length p))) by lia.
  change (String c (String d (p ++ String gt rest)))
    with ((String c (String d p)) ++ String gt rest)%string.
  f_equal. apply (substring_prefix (String c (String d p))).
Qed.

Lemma default_run_at_start text :
  Re.run Slackish.default_MENTION_REGEX 0 text [] Re.accept =
  match mention_spec text with
  | Some (id, rest) => Some [(2, rest); (1, id)]
  | None => None
  end.
Proof.
  destruct text as [|a [|b r]]; try reflexivity.
  - simpl. now destruct (Ascii.eqb a "<").
  - change (Re.run Slackish.default_MENTION_REGEX 0 (String a (String b r))
                   [] Re.accept)
      with (if Ascii.eqb a "<"
            then if Ascii.eqb b "@"
                 then Re.run group1 2 r [] (after_group1 Re.accept)
                 else None
            else None).
    rewrite group1_run.
    destruct r as [|c r1].
    + simpl. now destruct (Ascii.eqb a "<"), (Ascii.eqb b "@").
    + cbn [mention_spec].
      destruct (Ascii.eqb a "<"), (Ascii.eqb b "@"); reflexivity.
Qed.

(** Away from the start of the text the pattern fails on its [^]. *)
Lemma default_search_later s :
  forall pos, pos <> 0 ->
    Re.search_from Slackish.default_MENTION_REGEX pos s = None.
Proof.
  induction s as [|c s IH]; intros pos Hpos.
  - simpl. destruct pos; [contradiction | reflexivity].
  - cbn [Re.search_from]. rewrite IH by discriminate.
    unfold Slackish.default_MENTION_REGEX. cbn [Re.run].
    destruct pos; [contradiction | reflexivity].
Qed.

(** [re.search] with the default pattern. *)
Lemma default_search text :
  Re.search Slackish.default_MENTION_REGEX text =
  match mention_spec text with
  | Some (id, rest) =>
      Some {| Re.m_caps := [(2, rest); (1, id)]; Re.m_ngroups := 2 |}
  | None => None
  end.
Proof.
  unfold Re.search.
  assert (H : Re.search_from Slackish.default_MENTION_REGEX 0 text =
              Re.run Slackish.default_MENTION_REGEX 0 text [] Re.accept).
  { destruct text as [|c s]; cbn [Re.search_from].
    - now destruct (Re.run _ 0 EmptyString [] Re.accept).
    - rewrite default_search_later by discriminate.
      now destruct (Re.run _ 0 (String c s) [] Re.accept). }
  rewrite H, default_run_at_start.
  now destruct (mention_spec text) as [[id rest]|].
Qed.

Lemma parse_direct_mention_default self text :
  Slackish.MENTION_REGEX self = Slackish.default_MENTION_REGEX ->
  Slackish.parse_direct_mention self text =
  match mention_spec text with
  | Some (id, rest) => Ok (Some id, Some (PyStr.strip rest))
  | None => Ok (None, None)
  end.
Proof.
  intros Hre. unfold Slackish.parse_direct_mention.
  rewrite Hre, default_search.
  now destruct (mention_spec text) as [[id rest]|].
Qed.

(* ===================================================================== *)
(** ** The mention parser *)

(** *** Whitespace and trimming *)





Lemma string_append_assoc (a b c : string) :
  ((a ++ b) ++ c = a ++ (b ++ c))%string.
Proof. induction a as [|x a IH]; simpl; [reflexivity | now rewrite IH]. Qed.








(** *** What a match has captured *)









(** Without that, a match can lack the second group, and then the parser
    raises instead of returning: the pattern with an optional remainder
    on the text [@bob]. *)
Lemma optional_group2_raises registry :
  always_captures 2 optional_remainder_REGEX = false
  /\ Slackish.parse_direct_mention
       (Slackish.__init__ registry None (Some optional_remainder_REGEX) None)
       "@bob"
     = Raise (AttributeError "'NoneType' object has no attribute 'strip'")
  /\ Slackish.parse_direct_mention
       (Slackish.__init__ registry None (Some optional_remainder_REGEX) None)
       "@bob  hi "
     = Ok (Some "bob", Some "hi").
Proof. repeat split. Qed.

(** [strip] on texts with whitespace of several kinds at the ends and
    inside. *)
Lemma strip_examples :
  PyStr.strip "  hi there  " = "hi there"
  /\ PyStr.strip (String "009" (String "010" ("a b" ++ String "013" " ")))
     = "a b"
  /\ PyStr.strip (String "160" ("x" ++ String "133" EmptyString)) = "x"
  /\ PyStr.strip "   " = EmptyString
  /\ PyStr.strip "_a_" = "_a_".
Proof. repeat split. Qed.



(** C10.  Under the default pattern the empty identity is accepted:
    [<@> text] gives [('', 'text')], and so does every text that starts with
    [<@>]; identities that begin with W or U are accepted too. *)
Theorem C10_default_pattern_accepts_empty_identity :
  forall registry token bot_id,
    let self := Slackish.__init__ registry token None bot_id in
    Slackish.parse_direct_mention self "<@> text" = Ok (Some "", Some "text")
    /\ (forall rest,
           Slackish.parse_direct_mention self ("<@>" ++ rest) =
           Ok (Some "", Some (PyStr.strip (first_line rest))))
    /\ Slackish.parse_direct_mention self "<@U123> text"
       = Ok (Some "U123", Some "text")
    /\ Slackish.parse_direct_mention self "<@W9Z> text"
       = Ok (Some "W9Z", Some "text").
Proof.
  intros registry token bot_id self.
  assert (Hre : Slackish.MENTION_REGEX self = Slackish.default_MENTION_REGEX)
    by reflexivity.
  repeat split; intros;
    rewrite (parse_direct_mention_default self _ Hre); reflexivity.
Qed.

Lemma until_gt_plain p r :
  plain p = true -> until_gt (p ++ String gt r) = Some (p, r).
Proof.
  induction p as [|c p IH]; simpl; [reflexivity|].
  intros H. apply andb_prop in H as [H Hp]. apply andb_prop in H as [Hg Hn].
  apply negb_true_iff in Hg, Hn. rewrite Hg, Hn, IH by assumption.
  reflexivity.
Qed.

Lemma is_WU_not_gt c : is_WU c = true -> Ascii.eqb c gt = false.
Proof.
  unfold is_WU. simpl. intros H.
  destruct (Ascii.eqb c "W") eqn:EW.
  - apply Ascii.eqb_eq in EW. now subst.
  - destruct (Ascii.eqb c "U") eqn:EU; [|discriminate].
    apply Ascii.eqb_eq in EU. now subst.
Qed.

(** The default pattern on a mention of a mentionable identity. *)
Lemma mention_spec_mentionable id rest :
  mentionable id = true ->
  mention_spec ("<@" ++ id ++ String gt rest) = Some (id, first_line rest).
Proof.
  destruct id as [|c [|d p]]; try discriminate.
  - reflexivity.
  - intros H. cbn [mentionable] in H.
    apply andb_prop in H as [HWU Hplain].
    cbn [plain] in Hplain.
    apply andb_prop in Hplain as [H Hp]. apply andb_prop in H as [Hg Hn].
    apply negb_true_iff in Hn.
    change ("<@" ++ String c (String d p) ++ String gt rest)%string
      with (String "<" (String "@"
              (String c (String d (p ++ String gt rest))))).
    cbn [mention_spec Ascii.eqb Bool.eqb andb].
    rewrite (is_WU_not_gt c HWU), HWU, Hn, until_gt_plain by assumption.
    reflexivity.
Qed.

(** An identity that begins with anything but W or U is never recognised
    by the default pattern: an event that mentions it is not a command. *)
Lemma parse_bot_commands_other_identity
      registry token c botid' rest slack_event :
  is_WU c = false ->
  PyDict.contains "subtype" slack_event = false ->
  PyDict.get "text" slack_event
    = Some ("<@" ++ String c botid' ++ String gt rest)%string ->
  Slackish.parse_bot_commands
    (Slackish.__init__ registry token None (Some (String c botid')))
    slack_event
  = Ok (None, None).
Proof.
  intros HWU Hsub Htext. unfold Slackish.parse_bot_commands.
  rewrite Hsub, Htext. cbn [negb].
  rewrite parse_direct_mention_default by reflexivity.
  change ("<@" ++ String c botid' ++ String gt rest)%string
    with (String "<" (String "@" (String c (botid' ++ String gt rest)))).
  cbn [mention_spec Ascii.eqb Bool.eqb andb]. rewrite HWU.
  now destruct (Ascii.eqb c gt).
Qed.

(** The claim of C8 as it stands fails: with the default pattern and the
    bot identity [BOT1], the text [<@BOT1> foo bar] is no mention at all. *)
Lemma C8_counterexample_identity_BOT1 :
  Slackish.parse_bot_commands
    (Slackish.__init__ sample_registry None None (Some "BOT1"))
    [("type", "message"); ("text", "<@BOT1> foo bar"); ("channel", "C1")]
  = Ok (None, None)
  /\ Slackish.parse_bot_commands
       (Slackish.__init__ sample_registry None None (Some "BOT1"))
       [("type", "message"); ("text", "<@BOT1> foo bar"); ("channel", "C1")]
     <> Ok (Some "foo bar", Some "C1").
Proof. split; [reflexivity | discriminate]. Qed.

(** C8 (amended).  With the default pattern and a bot identity that is
    empty or is W or U followed by one or more characters, none of them [>]
    or a newline: for an event without [subtype] whose text is
    [<@BOTID> foo bar] and whose channel is [c], [parse_bot_commands]
    returns [('foo bar', c)].  With any pattern, when the identity that
    [parse_direct_mention] returns differs from the bot identity,
    [parse_bot_commands] returns [(None, None)]. *)
Theorem C8_parse_bot_commands_own_mention :
  (forall registry token botid slack_event c,
      mentionable botid = true ->
      PyDict.contains "subtype" slack_event = false ->
      PyDict.get "text" slack_event = Some ("<@" ++ botid ++ "> foo bar")%string ->
      PyDict.get "channel" slack_event = Some c ->
      Slackish.parse_bot_commands
        (Slackish.__init__ registry token None (Some botid)) slack_event
      = Ok (Some "foo bar", Some c))
  /\ (forall self slack_event message_text user_id message,
         PyDict.contains "subtype" slack_event = false ->
         PyDict.get "text" slack_event = Some message_text ->
         Slackish.parse_direct_mention self message_text
           = Ok (user_id, message) ->
         Slackish.option_string_eqb user_id (Slackish.BOT_ID self) = false ->
         Slackish.parse_bot_commands self slack_event = Ok (None, None)).
Proof.
  split.
  - intros registry token botid slack_event c Hid Hsub Htext Hchan.
    unfold Slackish.parse_bot_commands.
    rewrite Hsub, Htext. cbn [negb].
    rewrite parse_direct_mention_default by reflexivity.
    change ("<@" ++ botid ++ "> foo bar")%string
      with ("<@" ++ botid ++ String gt " foo bar")%string.
    rewrite (mention_spec_mentionable botid " foo bar" Hid).
    cbn [Slackish.option_string_eqb Slackish.BOT_ID Slackish.__init__].
    rewrite String.eqb_refl, Hchan. reflexivity.
  - intros self slack_event message_text user_id message Hsub Htext Hp Hne.
    unfold Slackish.parse_bot_commands.
    rewrite Hsub, Htext, Hp. cbn [negb]. now rewrite Hne.
Qed.

Lemma C8_parse_bot_commands_witness :
  Slackish.parse_bot_commands
    (Slackish.__init__ sample_registry None None (Some "U123"))
    [("type", "message"); ("text", "<@U123> foo bar"); ("channel", "C1")]
  = Ok (Some "foo bar", Some "C1").
Proof.
  apply (proj1 C8_parse_bot_commands_own_mention
           sample_registry None "U123"
           [("type", "message"); ("text", "<@U123> foo bar");
            ("channel", "C1")] "C1").
  - reflexivity.
  - reflexivity.
  - reflexivity.
  - reflexivity.
Defined.

(* ===================================================================== *)
(** ** The registry *)

Lemma get_after_init name fn registry :
  PyDict.get name (Command.__init__ fn registry) =
  if String.eqb (fn_name fn) name then Some (descriptor_of fn)
  else PyDict.get name registry.
Proof.
  unfold Command.__init__. fold (descriptor_of fn).
  destruct (String.eqb (fn_name fn) name) eqn:E.
  - apply String.eqb_eq in E. subst. apply get_set_same.
  - apply String.eqb_neq in E. now apply get_set_other.
Qed.

(** After a series of registrations a name leads to the last function
    registered under it. *)
Lemma get_after_register_all name fns :
  forall registry,
    PyDict.get name (Command.register_all fns registry) =
    match last_named name fns with
    | Some fn => Some (descriptor_of fn)
    | None => PyDict.get name registry
    end.
Proof.
  induction fns as [|fn fns IH]; intros registry; [reflexivity|].
  change (Command.register_all (fn :: fns) registry)
    with (Command.register_all fns (Command.__init__ fn registry)).
  rewrite IH. cbn [last_named].
  destruct (last_named name fns); [reflexivity|].
  rewrite get_after_init. now destruct (String.eqb (fn_name fn) name).
Qed.

(** The claim of C9 as it stands fails: a function named [Ping] is stored
    under [Ping], and the lowercased name leads nowhere. *)
Lemma C9_counterexample_capital_name :
  PyDict.get (PyStr.lower (fn_name Ping))
             (Command.__init__ Ping PyDict.empty) = None
  /\ PyDict.get (fn_name Ping) (Command.__init__ Ping PyDict.empty)
     = Some (descriptor_of Ping).
Proof. split; reflexivity. Qed.

(** C9 (amended).  For a function whose name is its own lowercase form:
    after any series of registrations in which it is the last function
    registered under its name, looking the lowercased name up returns the
    entry built from it (the function, its variable names, its docstring).
    Registering never fails; a second registration of a name replaces the
    first. *)
Theorem C9_lookup_returns_last_registration :
  forall fns registry fn,
    PyStr.lower (fn_name fn) = fn_name fn ->
    last_named (fn_name fn) fns = Some fn ->
    PyDict.get (PyStr.lower (fn_name fn)) (Command.register_all fns registry)
    = Some {| cmd := fn_body fn;
              argnames := fn_varnames fn;
              help := fn_doc fn |}.
Proof.
  intros fns registry fn Hlower Hlast.
  rewrite Hlower, get_after_register_all, Hlast. reflexivity.
Qed.

Lemma C9_lookup_witness :
  PyDict.get (PyStr.lower (fn_name ping_again))
             (Command.register_all [ping; setname; ping_again; crash]
                                   PyDict.empty)
  = Some {| cmd := fn_body ping_again;
            argnames := fn_varnames ping_again;
            help := fn_doc ping_again |}.
Proof.
  apply (C9_lookup_returns_last_registration
           [ping; setname; ping_again; crash] PyDict.empty ping_again).
  - reflexivity.
  - reflexivity.
Defined.

(* ===================================================================== *)
(** ** Keyword arguments *)

Lemma zip_self_drops_odd_bounded n :
  forall l x,
    length l <= n -> Nat.even (length l) = true ->
    Slackish.zip_self (l ++ [x]) = Slackish.zip_self l.
Proof.
  induction n as [|n IH]; intros l x Hlen Heven.
  - destruct l; [reflexivity | simpl in Hlen; lia].
  - destruct l as [|k [|v rest]]; try reflexivity; try discriminate.
    cbn [app Slackish.zip_self]. f_equal.
    apply IH; [simpl in Hlen; lia | exact Heven].
Qed.

Lemma zip_self_drops_odd l x :
  Nat.even (length l) = true ->
  Slackish.zip_self (l ++ [x]) = Slackish.zip_self l.
Proof. apply (zip_self_drops_odd_bounded (length l)). lia. Qed.

(** The claim of C3 as it stands fails on its example: after the key
    [setname] two tokens are left, they make one pair, and the function is
    called with [{Alice: extra}], not with [{setname: Alice}]. *)
Lemma C3_counterexample_setname_Alice_extra :
  calls (fst (Slackish.command_to_fn_call sample_bot "setname Alice extra"
                (receiving (Slackish.initial_world []) (Some "C1") 7)))
  = [("setname", [("Alice", "extra")])]
  /\ calls (fst (Slackish.command_to_fn_call sample_bot "setname Alice extra"
                   (receiving (Slackish.initial_world []) (Some "C1") 7)))
     <> [("setname", [("setname", "Alice")])].
Proof. split; [reflexivity | discriminate]. Qed.

(** C3 (amended).  For a command line whose key is registered, the tokens
    after the key are paired in order (first of a pair the key, second the
    value) and the command function is called once with the dictionary of
    these pairs; when their number is odd, the last one is dropped.
    [setname Alice extra] calls [setname] with [{Alice: extra}];
    [setname name Alice extra] calls it with [{name: Alice}]. *)
Theorem C3_keyword_arguments_from_token_pairs :
  (forall self command first others d client ch w,
      Shlex.split command = Ok (first :: others) ->
      PyDict.get (PyStr.lower first) (Slackish.registry self) = Some d ->
      ready client ch w ->
      Slackish.command_to_fn_call self command w =
        try_except
          (Slackish.call (PyStr.lower first) (cmd d)
                         (PyDict.of_pairs (Slackish.zip_self others)))
          is_KeyError (on_KeyError self) w
      /\ calls (fst (Slackish.command_to_fn_call self command w)) =
         calls w ++ [(PyStr.lower first,
                      PyDict.of_pairs (Slackish.zip_self others))])
  /\ (forall k v rest,
         Slackish.zip_self (k :: v :: rest) = (k, v) :: Slackish.zip_self rest)
  /\ (forall l x,
         Nat.even (length l) = true ->
         Slackish.zip_self (l ++ [x]) = Slackish.zip_self l)
  /\ Shlex.split "setname Alice extra" = Ok ["setname"; "Alice"; "extra"]
  /\ Slackish.list_to_dict ["Alice"; "extra"] = [("Alice", "extra")]
  /\ Shlex.split "setname name Alice extra"
     = Ok ["setname"; "name"; "Alice"; "extra"]
  /\ Slackish.list_to_dict ["name"; "Alice"; "extra"] = [("name", "Alice")].
Proof.
  split; [|repeat split; auto using zip_self_drops_odd].
  intros self command first others d client ch w Hsplit Hget Hw.
  split; [now apply dispatch_known|].
  rewrite (dispatch_known_run client ch self command first others d)
    by assumption.
  cbv zeta. destruct (raised _) as [e|]; [destruct (is_KeyError e)|];
    reflexivity.
Qed.

Lemma C3_keyword_arguments_witness :
  calls (fst (Slackish.command_to_fn_call sample_bot
                "setname name Alice extra"
                (receiving (Slackish.initial_world []) (Some "C1") 7)))
  = calls (receiving (Slackish.initial_world []) (Some "C1") 7) ++
    [(PyStr.lower "setname",
      PyDict.of_pairs (Slackish.zip_self ["name"; "Alice"; "extra"]))].
Proof.
  apply (proj1 C3_keyword_arguments_from_token_pairs
           sample_bot "setname name Alice extra" "setname"
           ["name"; "Alice"; "extra"] (descriptor_of setname)
           7 (Some "C1")).
  - reflexivity.
  - reflexivity.
  - split; reflexivity.
Defined.

(* ===================================================================== *)
(** ** What [handle] hands to the dispatcher *)

Lemma lstrip_head s c r :
  PyStr.lstrip s = String c r -> PyStr.isspace c = false.
Proof.
  induction s as [|a s IH]; simpl; [discriminate|].
  destruct (PyStr.isspace a) eqn:E; [assumption|].
  intros H. inversion H; subst. assumption.
Qed.

Lemma rstrip_head c r :
  PyStr.isspace c = false ->
  exists r', PyStr.rstrip (String c r) = String c r'.
Proof.
  intros Hc. simpl. destruct (PyStr.rstrip r) as [|a r'].
  - rewrite Hc. now exists EmptyString.
  - now exists (String a r').
Qed.

Lemma shlex_whitespace_isspace c :
  Shlex.is_whitespace c = true -> PyStr.isspace c = true.
Proof.
  unfold Shlex.is_whitespace. simpl. intros H.
  repeat (apply orb_prop in H as [H|H];
          [apply Ascii.eqb_eq in H; subst; reflexivity|]).
  discriminate.
Qed.

(** A stripped text is empty or starts with a character that [shlex] does
    not skip. *)
Lemma strip_not_blank s c r :
  PyStr.strip s = String c r -> all_whitespace (String c r) = false.
Proof.
  unfold PyStr.strip. intros H.
  destruct (PyStr.lstrip s) as [|a l] eqn:El; [discriminate|].
  pose proof (lstrip_head s a l El) as Ha.
  destruct (rstrip_head a l Ha) as [r' Hr]. rewrite Hr in H.
  inversion H; subst. simpl.
  destruct (Shlex.is_whitespace c) eqn:E; [|reflexivity].
  apply shlex_whitespace_isspace in E. congruence.
Qed.

Lemma parse_bot_commands_stripped self slack_event message chan :
  Slackish.parse_bot_commands self slack_event = Ok (Some message, chan) ->
  exists g2, message = PyStr.strip g2.
Proof.
  unfold Slackish.parse_bot_commands, Slackish.parse_direct_mention.
  destruct (negb (PyDict.contains "subtype" slack_event)); [|discriminate].
  destruct (PyDict.get "text" slack_event) as [text|]; [|discriminate].
  destruct (Re.search (Slackish.MENTION_REGEX self) text) as [m|].
  - destruct (Re.group m 1) as [g1|e]; [|discriminate].
    destruct (Re.group m 2) as [[g2|]|e]; try discriminate.
    destruct (Slackish.option_string_eqb g1 (Slackish.BOT_ID self));
      [|discriminate].
    destruct (PyDict.get "channel" slack_event); [|discriminate].
    intros H. inversion H; subst. now exists g2.
  - destruct (Slackish.option_string_eqb None (Slackish.BOT_ID self));
      [|discriminate].
    destruct (PyDict.get "channel" slack_event); discriminate.
Qed.

(** The command line of a dispatched event never tokenises to no token:
    [handle] drops the empty command, and a stripped one starts a token. *)
Lemma handle_dispatches_tokens bot payload c s chan :
  Slackish.parse_bot_commands bot (Slackish.data payload)
    = Ok (Some (String c s), chan) ->
  Shlex.split (String c s) <> Ok [].
Proof.
  intros Hparse Hsplit.
  apply parse_bot_commands_stripped in Hparse as [g2 Hg2].
  apply split_nil_all_whitespace in Hsplit.
  symmetry in Hg2. apply strip_not_blank in Hg2. congruence.
Qed.

(* ===================================================================== *)
(** ** One bot per process *)

(** X1.  Once a bot exists, every later call [Slackish(...)] returns that
    very bot, whatever arguments it is given (a registry, a pattern or an
    identity passed later are ignored), and [_instance] does not change. *)
Theorem X1_singleton_first_instance_wins :
  forall (argss : list SlackishArgs) (bot : Slackish.Bot),
    fst (SingletonMeta.calls_in_turn new_Slackish argss (Some bot)) = Some bot
    /\ Forall (fun r => r = Ok bot)
              (snd (SingletonMeta.calls_in_turn new_Slackish argss (Some bot))).
Proof.
  induction argss as [|args argss IH]; intros bot.
  - split; [reflexivity | constructor].
  - cbn [SingletonMeta.calls_in_turn SingletonMeta.__call__].
    destruct (IH bot) as [Hi Hr].
    destruct (SingletonMeta.calls_in_turn new_Slackish argss (Some bot))
      as [i2 rs].
    simpl in *. split; [assumption | now constructor].
Qed.

(** X2.  An event that arrives before any bot was built: [Slackish()]
    inside [handle] has no registry to build one with and raises
    [TypeError]; nothing is sent, the queue is untouched.  With a bot in
    place the event is handled by that bot. *)
Theorem X2_event_without_bot_raises_TypeError :
  forall payload w,
    (exists msg, on_message None payload w = (w, Raise (TypeError msg)))
    /\ (forall bot, on_message (Some bot) payload w
                    = Slackish.handle bot payload w).
Proof.
  intros payload w. split; [|reflexivity].
  eexists. reflexivity.
Qed.

(* ===================================================================== *)
(** ** Enqueue, then flush *)

Lemma send_all_run msgs :
  forall w,
    Slackish.for_each msgs Slackish.send w =
    ({| channel := channel w; web_client := web_client w;
        message_queue := message_queue w ++ msgs;
        outbox := outbox w; calls := calls w |}, Ok tt).
Proof.
  induction msgs as [|m msgs IH]; intros w.
  - simpl. unfold ret. rewrite app_nil_r. now destruct w.
  - cbn [Slackish.for_each]. unfold bind.
    unfold Slackish.send at 1. rewrite IH. simpl.
    now rewrite <- app_assoc.
Qed.

(** X3.  Messages enqueued with [Slackish.send] are posted by the next
    flush after the ones that were already waiting, each once, in the
    order of the [send] calls, on the current channel; the queue is empty
    afterwards. *)
Theorem X3_send_then_flush_keeps_order :
  forall client ch w msgs,
    ready client ch w ->
    (Slackish.for_each msgs Slackish.send ;;; Slackish.flush_and_reset) w =
    (with_empty_queue
       (add_sent w (flush_posts client ch (message_queue w ++ msgs))),
     Ok tt).
Proof.
  intros client ch w msgs Hw. unfold bind at 1. rewrite send_all_run.
  rewrite (flush_and_reset_run client ch) by (destruct Hw; now split).
  reflexivity.
Qed.

Lemma X3_send_then_flush_witness :
  (Slackish.for_each ["b"; "c"] Slackish.send ;;; Slackish.flush_and_reset)
    {| channel := Some (Some "C1"); web_client := Some 7;
       message_queue := ["a"]; outbox := []; calls := [] |} =
  ({| channel := Some (Some "C1"); web_client := Some 7;
      message_queue := [];
      outbox := [mkSent 7 (Some "C1") (Some "a");
                 mkSent 7 (Some "C1") (Some "b");
                 mkSent 7 (Some "C1") (Some "c")];
      calls := [] |}, Ok tt).
Proof.
  apply (X3_send_then_flush_keeps_order 7 (Some "C1")
           {| channel := Some (Some "C1"); web_client := Some 7;
              message_queue := ["a"]; outbox := []; calls := [] |}
           ["b"; "c"]).
  split; reflexivity.
Defined.

(** X4.  A flush before any event was dispatched, with messages waiting:
    [bot.web_client] is still [None], the first [post] raises
    [AttributeError], nothing is sent and the queue keeps its messages. *)
Theorem X4_flush_before_first_event_keeps_queue :
  forall w m queue,
    web_client w = None ->
    message_queue w = m :: queue ->
    exists msg,
      Slackish.flush_and_reset w = (w, Raise (AttributeError msg)).
Proof.
  intros w m queue Hc Hq.
  unfold Slackish.flush_and_reset, bind, Slackish.get_queue.
  rewrite Hq. cbn [Slackish.flush Slackish.for_each]. unfold bind.
  unfold Slackish.post. rewrite Hc. eexists. reflexivity.
Qed.

Lemma X4_flush_before_first_event_witness :
  exists msg,
    Slackish.flush_and_reset (Slackish.initial_world ["early"]) =
    (Slackish.initial_world ["early"], Raise (AttributeError msg)).
Proof.
  apply (X4_flush_before_first_event_keeps_queue
           (Slackish.initial_world ["early"]) "early" []).
  - reflexivity.
  - reflexivity.
Defined.

(* ===================================================================== *)
(** ** Events, case by case *)

Lemma not_Exception_not_KeyError e :
  is_Exception e = false -> is_KeyError e = false.
Proof. now destruct e. Qed.

(** X5.  A command whose function returns normally: the function is
    called once with the paired tokens, its own posts go out, then the
    queue as the function left it is posted in order and emptied.  No
    error message, no fallback message and no help text is posted. *)
Theorem X5_command_that_returns_is_answered_from_queue :
  forall bot payload c s chan first others d w,
    Slackish.parse_bot_commands bot (Slackish.data payload)
      = Ok (Some (String c s), chan) ->
    Shlex.split (String c s) = Ok (first :: others) ->
    PyDict.get (PyStr.lower first) (Slackish.registry bot) = Some d ->
    raised (cmd d (Slackish.list_to_dict others) (message_queue w)) = None ->
    let client := Slackish.payload_web_client payload in
    let kw := Slackish.list_to_dict others in
    let o := cmd d kw (message_queue w) in
    Slackish.handle bot payload w =
    (with_empty_queue
       (add_sent (invoked (receiving w chan client) (PyStr.lower first) kw o)
                 (own_posts client chan o ++
                  flush_posts client chan (queue_after o))),
     Ok tt).
Proof.
  intros bot payload c s chan first others d w Hparse Hsplit Hget Hraised.
  cbv zeta.
  rewrite (handle_known_run bot payload c s chan first others d)
    by assumption.
  cbv zeta. now rewrite Hraised.
Qed.

Lemma X5_ping_witness :
  Slackish.handle sample_bot (message_event "<@U123> ping")
                  (Slackish.initial_world []) =
  ({| channel := Some (Some "C1"); web_client := Some 7;
      message_queue := [];
      outbox := [mkSent 7 (Some "C1") (Some "pong")];
      calls := [("ping", [])] |}, Ok tt).
Proof.
  apply (X5_command_that_returns_is_answered_from_queue
           sample_bot (message_event "<@U123> ping")
           "p"%char "ing" (Some "C1") "ping" [] (descriptor_of ping)
           (Slackish.initial_world [])).
  - reflexivity.
  - reflexivity.
  - reflexivity.
  - reflexivity.
Defined.

(** X6.  Messages that are already in the queue when an event is
    dispatched (put there outside a command, or left by an event that did
    not reach its flush) go to the channel of this event: for an unknown
    command they are posted after the error message and the help texts. *)
Theorem X6_waiting_messages_go_to_the_current_channel :
  forall bot payload c s chan first others w,
    Slackish.parse_bot_commands bot (Slackish.data payload)
      = Ok (Some (String c s), chan) ->
    Shlex.split (String c s) = Ok (first :: others) ->
    PyDict.get (PyStr.lower first) (Slackish.registry bot) = None ->
    let client := Slackish.payload_web_client payload in
    Slackish.handle bot payload w =
    (with_empty_queue
       (add_sent (receiving w chan client)
                 (invalid_command_post client chan ::
                  help_posts bot client chan ++
                  flush_posts client chan (message_queue w))),
     Ok tt).
Proof.
  intros bot payload c s chan first others w Hparse Hsplit Hget client.
  rewrite (handle_dispatch bot payload c s chan) by assumption.
  fold client.
  rewrite (handle_after_dispatch client chan bot (String c s) _ _ _
             (ready_receiving _ _ _)
             (dispatch_unknown_run client chan bot (String c s) first others
                _ Hsplit Hget (ready_receiving _ _ _))).
  rewrite add_sent_app. reflexivity.
Qed.

Lemma X6_waiting_messages_witness :
  outbox (fst (Slackish.handle sample_bot (message_event "<@U123> nope")
                 (Slackish.initial_world ["left over"]))) =
  invalid_command_post 7 (Some "C1") ::
  help_posts sample_bot 7 (Some "C1") ++
  [mkSent 7 (Some "C1") (Some "left over")].
Proof.
  rewrite (X6_waiting_messages_go_to_the_current_channel
             sample_bot (message_event "<@U123> nope")
             "n"%char "ope" (Some "C1") "nope" []
             (Slackish.initial_world ["left over"])).
  - reflexivity.
  - reflexivity.
  - reflexivity.
  - reflexivity.
Defined.

(** X7.  A command function that raises outside [Exception] (SystemExit,
    KeyboardInterrupt): neither [except] clause catches it, [handle] raises
    it to the transport, and the flush is not reached: what the function
    enqueued stays in the queue, nothing of it is posted. *)
Theorem X7_exit_in_a_command_skips_the_flush :
  forall bot payload c s chan first others d w e,
    Slackish.parse_bot_commands bot (Slackish.data payload)
      = Ok (Some (String c s), chan) ->
    Shlex.split (String c s) = Ok (first :: others) ->
    PyDict.get (PyStr.lower first) (Slackish.registry bot) = Some d ->
    raised (cmd d (Slackish.list_to_dict others) (message_queue w)) = Some e ->
    is_Exception e = false ->
    let client := Slackish.payload_web_client payload in
    let kw := Slackish.list_to_dict others in
    let o := cmd d kw (message_queue w) in
    Slackish.handle bot payload w =
      (add_sent (invoked (receiving w chan client) (PyStr.lower first) kw o)
                (own_posts client chan o),
       Raise e)
    /\ message_queue (fst (Slackish.handle bot payload w)) = queue_after o.
Proof.
  intros bot payload c s chan first others d w e
         Hparse Hsplit Hget Hraised HE.
  cbv zeta.
  rewrite (handle_known_run bot payload c s chan first others d)
    by assumption.
  cbv zeta.
  rewrite Hraised, (not_Exception_not_KeyError e HE), HE.
  split; reflexivity.
Qed.

Lemma X7_exit_witness :
  Slackish.handle
    (Slackish.__init__ (quit_bot_registry quit) None None (Some "U123"))
    (message_event "<@U123> quit") (Slackish.initial_world []) =
  ({| channel := Some (Some "C1"); web_client := Some 7;
      message_queue := ["bye"]; outbox := [];
      calls := [("quit", [])] |},
   Raise (NonException "SystemExit")).
Proof.
  apply (X7_exit_in_a_command_skips_the_flush
           (Slackish.__init__ (quit_bot_registry quit) None None
                              (Some "U123"))
           (message_event "<@U123> quit")
           "q"%char "uit" (Some "C1") "quit" [] (descriptor_of quit)
           (Slackish.initial_world [])
           (NonException "SystemExit")).
  - reflexivity.
  - reflexivity.
  - reflexivity.
  - reflexivity.
  - reflexivity.
Defined.

(** X8.  An event without [subtype] and without [text] is not ignored:
    the lookup of [text] raises [KeyError], which [handle] does not catch;
    the world is untouched.  The same holds for a mention of the bot in an
    event that has no [channel]. *)
Theorem X8_event_without_text_or_channel_raises_KeyError :
  forall bot payload w,
    PyDict.contains "subtype" (Slackish.data payload) = false ->
    (PyDict.get "text" (Slackish.data payload) = None ->
     Slackish.handle bot payload w = (w, Raise (KeyError "text")))
    /\ (forall message_text user_id message,
           PyDict.get "text" (Slackish.data payload) = Some message_text ->
           Slackish.parse_direct_mention bot message_text
             = Ok (user_id, message) ->
           Slackish.option_string_eqb user_id (Slackish.BOT_ID bot) = true ->
           PyDict.get "channel" (Slackish.data payload) = None ->
           Slackish.handle bot payload w = (w, Raise (KeyError "channel"))).
Proof.
  intros bot payload w Hsub. split.
  - intros Htext. unfold Slackish.handle, bind, lift.
    unfold Slackish.parse_bot_commands. now rewrite Hsub, Htext.
  - intros message_text user_id message Htext Hp Heq Hchan.
    unfold Slackish.handle, bind, lift.
    unfold Slackish.parse_bot_commands.
    now rewrite Hsub, Htext, Hp, Heq, Hchan.
Qed.

Lemma X8_event_without_text_witness :
  Slackish.handle sample_bot
    (Slackish.mkPayload [("type", "message"); ("channel", "C1")] 7 8)
    (Slackish.initial_world []) =
  (Slackish.initial_world [], Raise (KeyError "text")).
Proof.
  apply (proj1 (X8_event_without_text_or_channel_raises_KeyError
                  sample_bot
                  (Slackish.mkPayload
                     [("type", "message"); ("channel", "C1")] 7 8)
                  (Slackish.initial_world []) eq_refl)).
  reflexivity.
Defined.

(** X9.  While the bot has no identity ([BOT_ID] is [None], as before
    [serve] has resolved it), a text that is no mention compares equal to
    it ([None == None]): [parse_bot_commands] returns [(None, channel)], not
    [(None, None)].  The command being [None], [handle] still drops the
    event. *)
Theorem X9_no_identity_no_mention_returns_channel :
  forall self payload message_text c w,
    Slackish.BOT_ID self = None ->
    PyDict.contains "subtype" (Slackish.data payload) = false ->
    PyDict.get "text" (Slackish.data payload) = Some message_text ->
    Re.search (Slackish.MENTION_REGEX self) message_text = None ->
    PyDict.get "channel" (Slackish.data payload) = Some c ->
    Slackish.parse_bot_commands self (Slackish.data payload)
      = Ok (None, Some c)
    /\ Slackish.handle self payload w = (w, Ok tt).
Proof.
  intros self payload message_text c w Hid Hsub Htext Hsearch Hchan.
  assert (Hparse : Slackish.parse_bot_commands self (Slackish.data payload)
                   = Ok (None, Some c)).
  { unfold Slackish.parse_bot_commands, Slackish.parse_direct_mention.
    now rewrite Hsub, Htext, Hsearch, Hid, Hchan. }
  split; [assumption|].
  now apply (handle_discard self payload None (Some c)).
Qed.

Lemma X9_no_identity_witness :
  Slackish.parse_bot_commands
    (Slackish.__init__ sample_registry None None None)
    (Slackish.data (message_event "hello all"))
  = Ok (None, Some "C1")
  /\ Slackish.handle (Slackish.__init__ sample_registry None None None)
                     (message_event "hello all") (Slackish.initial_world [])
     = (Slackish.initial_world [], Ok tt).
Proof.
  apply (X9_no_identity_no_mention_returns_channel
           (Slackish.__init__ sample_registry None None None)
           (message_event "hello all") "hello all" "C1"
           (Slackish.initial_world [])).
  - reflexivity.
  - reflexivity.
  - reflexivity.
  - reflexivity.
  - reflexivity.
Defined.

(* ===================================================================== *)
(** ** What counts as a mention under the default pattern *)

Lemma mention_spec_needs_prefix text :
  (forall r, text <> String "<" (String "@" r)) ->
  mention_spec text = None.
Proof.
  intros Hno. destruct text as [|a [|b [|c r]]]; try reflexivity.
  cbn [mention_spec].
  destruct (Ascii.eqb a "<") eqn:Ea; [|reflexivity].
  destruct (Ascii.eqb b "@") eqn:Eb; [|reflexivity].
  apply Ascii.eqb_eq in Ea, Eb. subst.
  exfalso. now apply (Hno (String c r)).
Qed.

Lemma first_line_one_line line more :
  one_line line = true ->
  first_line (line ++ String Re.newline more) = line.
Proof.
  induction line as [|c line IH]; simpl; [reflexivity|].
  intros H. apply andb_prop in H as [Hc Hl].
  apply negb_true_iff in Hc. rewrite Hc. f_equal. now apply IH.
Qed.

(** X10.  With the default pattern a mention counts only at the very
    start of the text: a text that does not begin with [<@] (a leading
    space, a mention further on) is no mention, and a bot that has an
    identity drops the event without any effect. *)
Theorem X10_mention_must_open_the_text :
  forall registry token botid payload message_text w,
    let self := Slackish.__init__ registry token None (Some botid) in
    PyDict.contains "subtype" (Slackish.data payload) = false ->
    PyDict.get "text" (Slackish.data payload) = Some message_text ->
    (forall r, message_text <> String "<" (String "@" r)) ->
    Slackish.parse_direct_mention self message_text = Ok (None, None)
    /\ Slackish.handle self payload w = (w, Ok tt).
Proof.
  intros registry token botid payload message_text w self Hsub Htext Hno.
  assert (Hp : Slackish.parse_direct_mention self message_text
               = Ok (None, None)).
  { rewrite parse_direct_mention_default by reflexivity.
    now rewrite mention_spec_needs_prefix. }
  split; [assumption|].
  apply (handle_discard self payload None None); [|reflexivity].
  unfold Slackish.parse_bot_commands. now rewrite Hsub, Htext, Hp.
Qed.

Lemma X10_mention_must_open_the_text_witness :
  Slackish.parse_direct_mention
    (Slackish.__init__ sample_registry None None (Some "U123"))
    " <@U123> ping" = Ok (None, None)
  /\ Slackish.handle
       (Slackish.__init__ sample_registry None None (Some "U123"))
       (message_event " <@U123> ping") (Slackish.initial_world [])
     = (Slackish.initial_world [], Ok tt).
Proof.
  apply (X10_mention_must_open_the_text
           sample_registry None "U123" (message_event " <@U123> ping")
           " <@U123> ping" (Slackish.initial_world [])).
  - reflexivity.
  - reflexivity.
  - intros r H. discriminate H.
Defined.

(** X11.  With the default pattern the command is the rest of the first
    line only: for a mention of an identity the pattern delivers whole,
    followed by a line and then a newline and more text, the command is
    the stripped line; what follows the newline is lost. *)
Theorem X11_command_is_cut_at_the_first_newline :
  forall registry token bot_id id line more,
    mentionable id = true ->
    one_line line = true ->
    Slackish.parse_direct_mention
      (Slackish.__init__ registry token None bot_id)
      ("<@" ++ id ++ String gt (line ++ String Re.newline more))
    = Ok (Some id, Some (PyStr.strip line)).
Proof.
  intros registry token bot_id id line more Hid Hline.
  rewrite parse_direct_mention_default by reflexivity.
  rewrite (mention_spec_mentionable id _ Hid).
  now rewrite first_line_one_line.
Qed.

Lemma X11_command_is_cut_witness :
  Slackish.parse_direct_mention
    (Slackish.__init__ sample_registry None None (Some "U123"))
    ("<@" ++ "U123" ++
     String gt (" setname name" ++ String Re.newline "Alice"))
  = Ok (Some "U123", Some (PyStr.strip " setname name")).
Proof.
  apply (X11_command_is_cut_at_the_first_newline
           sample_registry None (Some "U123") "U123"
           " setname name" "Alice").
  - reflexivity.
  - reflexivity.
Defined.

(** X12.  A mention of the bot with nothing but whitespace after it on
    the line is no command: [handle] returns at once and leaves the world
    as it was (no error message, no help). *)
Theorem X12_bare_mention_is_dropped :
  forall registry token botid payload rest c w,
    let self := Slackish.__init__ registry token None (Some botid) in
    mentionable botid = true ->
    PyDict.contains "subtype" (Slackish.data payload) = false ->
    PyDict.get "text" (Slackish.data payload)
      = Some ("<@" ++ botid ++ String gt rest)%string ->
    PyDict.get "channel" (Slackish.data payload) = Some c ->
    PyStr.strip (first_line rest) = EmptyString ->
    Slackish.parse_bot_commands self (Slackish.data payload)
      = Ok (Some EmptyString, Some c)
    /\ Slackish.handle self payload w = (w, Ok tt).
Proof.
  intros registry token botid payload rest c w self
         Hid Hsub Htext Hchan Hblank.
  assert (Hp : Slackish.parse_bot_commands self (Slackish.data payload)
               = Ok (Some EmptyString, Some c)).
  { unfold Slackish.parse_bot_commands. rewrite Hsub, Htext. cbn [negb].
    rewrite parse_direct_mention_default by reflexivity.
    rewrite (mention_spec_mentionable botid rest Hid), Hblank.
    cbn [Slackish.option_string_eqb Slackish.BOT_ID Slackish.__init__ self].
    now rewrite String.eqb_refl, Hchan. }
  split; [assumption|].
  now apply (handle_discard self payload (Some EmptyString) (Some c)).
Qed.

Lemma X12_bare_mention_witness :
  Slackish.parse_bot_commands
    (Slackish.__init__ sample_registry None None (Some "U123"))
    (Slackish.data (message_event "<@U123>   "))
  = Ok (Some EmptyString, Some "C1")
  /\ Slackish.handle
       (Slackish.__init__ sample_registry None None (Some "U123"))
       (message_event "<@U123>   ") (Slackish.initial_world ["kept"])
     = (Slackish.initial_world ["kept"], Ok tt).
Proof.
  apply (X12_bare_mention_is_dropped
           sample_registry None "U123" (message_event "<@U123>   ")
           "   " "C1" (Slackish.initial_world ["kept"])).
  - reflexivity.
  - reflexivity.
  - reflexivity.
  - reflexivity.
  - reflexivity.
Defined.

(* ===================================================================== *)
(** ** The tokeniser *)

Lemma string_app_assoc (a b c : string) :
  ((a ++ b) ++ c = a ++ (b ++ c))%string.
Proof. induction a as [|x a IH]; simpl; [reflexivity | now rewrite IH]. Qed.

Lemma string_app_nil_r (a : string) : (a ++ EmptyString = a)%string.
Proof. induction a as [|x a IH]; simpl; [reflexivity | now rewrite IH]. Qed.

Lemma cons_token_raise t r e :
  Shlex.cons_token t r = Raise e -> r = Raise e.
Proof. destruct r; simpl; congruence. Qed.

Lemma lex_raises_ValueError input :
  forall state es quoted token e,
    Shlex.lex state es quoted token input = Raise e ->
    e = ValueError "No closing quotation"
    \/ e = ValueError "No escaped character".
Proof.
  induction input as [|c rest IH]; intros state es quoted token e H.
  - destruct state; simpl in H.
    + destruct (negb quoted && negb (Shlex.nonempty token)); discriminate.
    + destruct (negb quoted && negb (Shlex.nonempty token)); discriminate.
    + inversion H. now left.
    + inversion H. now right.
  - destruct state; simpl in H.
    + destruct (Shlex.is_whitespace c).
      * destruct (Shlex.nonempty token || quoted);
          [apply cons_token_raise in H|]; eauto.
      * destruct (Shlex.is_escape c); [eauto|].
        destruct (Shlex.is_quote c); eauto.
    + destruct (Shlex.is_whitespace c).
      * destruct (Shlex.nonempty token || quoted);
          [apply cons_token_raise in H|]; eauto.
      * destruct (Shlex.is_quote c); [eauto|].
        destruct (Shlex.is_escape c); eauto.
    + destruct (Ascii.eqb c q); [eauto|].
      destruct (Shlex.is_escape c && Shlex.is_escapedquote q); eauto.
    + eauto.
Qed.

Lemma lex_open_squote q :
  forall es quoted token,
    no_squote q = true ->
    Shlex.lex (Shlex.St_quote Shlex.squote) es quoted token q
    = Raise (ValueError "No closing quotation").
Proof.
  induction q as [|c q IH]; intros es quoted token Hq; [reflexivity|].
  simpl in Hq. apply andb_prop in Hq as [Hc Hq].
  apply negb_true_iff in Hc.
  cbn [Shlex.lex]. rewrite Hc.
  change (Shlex.is_escapedquote Shlex.squote) with false.
  rewrite andb_false_r. now apply IH.
Qed.

(** X13.  [shlex.split] raises nothing but [ValueError], for a quote
    that is not closed or a backslash at the very end; and it does raise
    on a line that ends inside single quotes. *)
Theorem X13_split_raises_only_ValueError :
  (forall s e,
      Shlex.split s = Raise e ->
      e = ValueError "No closing quotation"
      \/ e = ValueError "No escaped character")
  /\ (forall q,
         no_squote q = true ->
         Shlex.split (String Shlex.squote q)
         = Raise (ValueError "No closing quotation")).
Proof.
  split.
  - intros s e. apply lex_raises_ValueError.
  - intros q Hq. unfold Shlex.split. cbn [Shlex.lex].
    change (Shlex.is_whitespace Shlex.squote) with false.
    change (Shlex.is_escape Shlex.squote) with false.
    change (Shlex.is_quote Shlex.squote) with true. cbv iota.
    now apply lex_open_squote.
Qed.

Lemma X13_split_raises_witness :
  ValueError "No escaped character" = ValueError "No closing quotation"
  \/ ValueError "No escaped character" = ValueError "No escaped character".
Proof.
  apply (proj1 X13_split_raises_only_ValueError "say hi\").
  reflexivity.
Defined.

(** X14.  A command line that [shlex] cannot split (an open quote, a
    trailing backslash) is answered like a failing command: the fallback
    message, the help texts, then the waiting queue; [handle] returns. *)
Theorem X14_unbalanced_quote_gets_the_fallback :
  forall bot payload c s chan e w,
    Slackish.parse_bot_commands bot (Slackish.data payload)
      = Ok (Some (String c s), chan) ->
    Shlex.split (String c s) = Raise e ->
    let client := Slackish.payload_web_client payload in
    Slackish.handle bot payload w =
    (with_empty_queue
       (add_sent (receiving w chan client)
                 (fallback_post client chan ::
                  help_posts bot client chan ++
                  flush_posts client chan (message_queue w))),
     Ok tt).
Proof.
  intros bot payload c s chan e w Hparse Hsplit client.
  rewrite (handle_dispatch bot payload c s chan) by assumption.
  fold client.
  assert (Hrun : Slackish.command_to_fn_call bot (String c s)
                   (receiving w chan client)
                 = (receiving w chan client, Raise e)).
  { unfold Slackish.command_to_fn_call, bind, lift. now rewrite Hsplit. }
  rewrite (handle_after_dispatch client chan bot (String c s) _ _ _
             (ready_receiving _ _ _) Hrun).
  destruct (lex_raises_ValueError _ _ _ _ _ _ Hsplit) as [-> | ->];
    reflexivity.
Qed.

Lemma X14_unbalanced_quote_witness :
  Slackish.handle sample_bot (message_event "<@U123> setname name 'Al")
                  (Slackish.initial_world []) =
  (with_empty_queue
     (add_sent (receiving (Slackish.initial_world []) (Some "C1") 7)
               (fallback_post 7 (Some "C1") ::
                help_posts sample_bot 7 (Some "C1") ++
                flush_posts 7 (Some "C1") [])),
   Ok tt).
Proof.
  apply (X14_unbalanced_quote_gets_the_fallback
           sample_bot (message_event "<@U123> setname name 'Al")
           "s"%char "etname name 'Al" (Some "C1")
           (ValueError "No closing quotation")
           (Slackish.initial_world [])).
  - reflexivity.
  - reflexivity.
Defined.

Lemma word_char_tests c :
  word_char c = true ->
  Shlex.is_whitespace c = false /\ Shlex.is_quote c = false
  /\ Shlex.is_escape c = false.
Proof.
  unfold word_char. intros H.
  apply andb_prop in H as [H He]. apply andb_prop in H as [Hw Hq].
  now rewrite negb_true_iff in Hw, Hq, He.
Qed.

(** Inside a word, word characters are added to the token. *)
Lemma lex_word_chars w :
  forall rest es quoted token,
    word_chars w = true ->
    Shlex.lex Shlex.St_word es quoted token (w ++ rest) =
    Shlex.lex Shlex.St_word es quoted (token ++ w) rest.
Proof.
  induction w as [|c w IH]; intros rest es quoted token Hw.
  - simpl. now rewrite string_app_nil_r.
  - simpl in Hw. apply andb_prop in Hw as [Hc Hw].
    destruct (word_char_tests c Hc) as [H1 [H2 H3]].
    cbn [append Shlex.lex]. rewrite H1, H2, H3.
    rewrite IH by assumption. unfold Shlex.push.
    now rewrite string_app_assoc.
Qed.

(** A plain word followed by a space is one token. *)
Lemma lex_plain_word_space w tail :
  plain_word w = true ->
  Shlex.lex Shlex.St_space Shlex.St_space false EmptyString
            (w ++ String " " tail) =
  Shlex.cons_token w
    (Shlex.lex Shlex.St_space Shlex.St_space false EmptyString tail).
Proof.
  unfold plain_word. intros H. apply andb_prop in H as [Hne Hw].
  destruct w as [|c w]; [discriminate|].
  simpl in Hw. apply andb_prop in Hw as [Hc Hw].
  destruct (word_char_tests c Hc) as [H1 [H2 H3]].
  cbn [append Shlex.lex]. rewrite H1, H2, H3.
  rewrite lex_word_chars by assumption.
  cbn [Shlex.lex append]. reflexivity.
Qed.

(** A plain word at the end of the line is the last token. *)
Lemma lex_plain_word_end w :
  plain_word w = true ->
  Shlex.lex Shlex.St_space Shlex.St_space false EmptyString w = Ok [w].
Proof.
  unfold plain_word. intros H. apply andb_prop in H as [Hne Hw].
  destruct w as [|c w]; [discriminate|].
  simpl in Hw. apply andb_prop in Hw as [Hc Hw].
  destruct (word_char_tests c Hc) as [H1 [H2 H3]].
  cbn [Shlex.lex]. rewrite H1, H2, H3.
  rewrite <- (string_app_nil_r w) at 1.
  rewrite lex_word_chars by assumption.
  reflexivity.
Qed.

Lemma lex_words_then ws :
  forall tail,
    Forall (fun w => plain_word w = true) ws ->
    Shlex.lex Shlex.St_space Shlex.St_space false EmptyString
              (words_then ws tail) =
    match Shlex.lex Shlex.St_space Shlex.St_space false EmptyString tail with
    | Ok ts => Ok (ws ++ ts)
    | Raise e => Raise e
    end.
Proof.
  induction ws as [|w ws IH]; intros tail Hws.
  - simpl. now destruct (Shlex.lex _ _ _ _ tail).
  - inversion Hws; subst. cbn [words_then].
    rewrite lex_plain_word_space by assumption.
    rewrite IH by assumption.
    now destruct (Shlex.lex _ _ _ _ tail).
Qed.

(** X15.  Words without whitespace, quotes or backslashes, written with
    one space between them, are split back into exactly these words. *)
Theorem X15_split_of_joined_plain_words :
  forall ws,
    Forall (fun w => plain_word w = true) ws ->
    Shlex.split (join_words ws) = Ok ws.
Proof.
  unfold Shlex.split.
  induction ws as [|w ws IH]; intros Hws; [reflexivity|].
  inversion Hws as [|? ? Hw Hws']; subst.
  destruct ws as [|w2 ws].
  - now apply lex_plain_word_end.
  - change (join_words (w :: w2 :: ws))
      with (w ++ String " " (join_words (w2 :: ws)))%string.
    rewrite lex_plain_word_space by assumption.
    now rewrite IH.
Qed.

Lemma X15_split_of_joined_witness :
  Shlex.split (join_words ["setname"; "name"; "Alice"])
  = Ok ["setname"; "name"; "Alice"].
Proof.
  apply (X15_split_of_joined_plain_words ["setname"; "name"; "Alice"]).
  repeat constructor.
Defined.

(** In single quotes every character but the quote is taken as it is. *)
Lemma lex_in_squotes q :
  forall rest es quoted token,
    no_squote q = true ->
    Shlex.lex (Shlex.St_quote Shlex.squote) es quoted token
              (q ++ String Shlex.squote rest) =
    Shlex.lex Shlex.St_word es true (token ++ q) rest.
Proof.
  induction q as [|c q IH]; intros rest es quoted token Hq.
  - cbn [append Shlex.lex]. rewrite Ascii.eqb_refl.
    now rewrite string_app_nil_r.
  - simpl in Hq. apply andb_prop in Hq as [Hc Hq].
    apply negb_true_iff in Hc.
    cbn [append Shlex.lex]. rewrite Hc.
    change (Shlex.is_escapedquote Shlex.squote) with false.
    rewrite andb_false_r. rewrite IH by assumption.
    unfold Shlex.push. now rewrite string_app_assoc.
Qed.

(** X16.  A last argument in single quotes is one token, taken as it is
    written between the quotes: spaces, double quotes and backslashes
    included, and the empty token for [''].  The words before it are
    split as usual. *)
Theorem X16_single_quoted_argument_is_one_token :
  forall ws q,
    Forall (fun w => plain_word w = true) ws ->
    no_squote q = true ->
    Shlex.split
      (words_then ws (String Shlex.squote (q ++ String Shlex.squote EmptyString)))
    = Ok (ws ++ [q]).
Proof.
  intros ws q Hws Hq. unfold Shlex.split.
  rewrite lex_words_then by assumption.
  cbn [Shlex.lex].
  change (Shlex.is_whitespace Shlex.squote) with false.
  change (Shlex.is_escape Shlex.squote) with false.
  change (Shlex.is_quote Shlex.squote) with true. cbv iota.
  rewrite lex_in_squotes by assumption.
  reflexivity.
Qed.

Lemma X16_single_quoted_witness :
  Shlex.split
    (words_then ["setname"; "name"]
       (String Shlex.squote
               ("Alice \ Liddell" ++ String Shlex.squote EmptyString)))
  = Ok (["setname"; "name"] ++ ["Alice \ Liddell"]).
Proof.
  apply (X16_single_quoted_argument_is_one_token
           ["setname"; "name"] "Alice \ Liddell").
  - repeat constructor.
  - reflexivity.
Defined.

(* ===================================================================== *)
(** ** Keyword arguments as a dictionary *)

Lemma fold_set_well_formed (ps : list (string * string)) :
  forall d : kwargs,
    well_formed d ->
    well_formed (fold_left (fun d kv => PyDict.set (fst kv) (snd kv) d) ps d).
Proof.
  induction ps as [|[k v] ps IH]; intros d Hd; [assumption|].
  apply IH. now apply set_well_formed.
Qed.

Lemma fold_set_get k (ps : list (string * string)) :
  forall d : kwargs,
    PyDict.get k (fold_left (fun d kv => PyDict.set (fst kv) (snd kv) d) ps d)
    = match last_value k ps with
      | Some v => Some v
      | None => PyDict.get k d
      end.
Proof.
  induction ps as [|[k' v] ps IH]; intros d; [reflexivity|].
  cbn [fold_left last_value fst snd]. rewrite IH.
  destruct (last_value k ps); [reflexivity|].
  destruct (String.eqb k' k) eqn:E.
  - apply String.eqb_eq in E. subst. apply get_set_same.
  - apply String.eqb_neq in E. now apply get_set_other.
Qed.

(** X17.  The keyword arguments built from the tokens have pairwise
    distinct keys, and a key that is written several times carries the
    value of its last occurrence; a key that is never written is absent. *)
Theorem X17_repeated_keyword_takes_last_value :
  forall alist k,
    well_formed (Slackish.list_to_dict alist)
    /\ PyDict.get k (Slackish.list_to_dict alist)
       = last_value k (Slackish.zip_self alist).
Proof.
  intros alist k. unfold Slackish.list_to_dict, PyDict.of_pairs. split.
  - apply fold_set_well_formed. constructor.
  - rewrite fold_set_get. now destruct (last_value k _).
Qed.

(* ===================================================================== *)
(** ** The command key *)

Lemma lower_char_idempotent c :
  PyStr.lower_char (PyStr.lower_char c) = PyStr.lower_char c.
Proof.
  destruct c as [[] [] [] [] [] [] [] []]; reflexivity.
Qed.

Lemma lower_idempotent s : PyStr.lower (PyStr.lower s) = PyStr.lower s.
Proof.
  induction s as [|c s IH]; simpl; [reflexivity|].
  now rewrite lower_char_idempotent, IH.
Qed.

(** X18.  The command key is case-insensitive on the user's side: a
    command line and the same line with its first token in lowercase are
    dispatched the same way, whatever the registry. *)
Theorem X18_command_key_ignores_case :
  forall self command command' first others w,
    Shlex.split command = Ok (first :: others) ->
    Shlex.split command' = Ok (PyStr.lower first :: others) ->
    Slackish.command_to_fn_call self command w =
    Slackish.command_to_fn_call self command' w.
Proof.
  intros self command command' first others w H1 H2.
  unfold Slackish.command_to_fn_call, bind, lift.
  rewrite H1, H2. cbv zeta. now rewrite lower_idempotent.
Qed.

Lemma X18_command_key_witness :
  Slackish.command_to_fn_call sample_bot "PiNG now"
    (receiving (Slackish.initial_world []) (Some "C1") 7) =
  Slackish.command_to_fn_call sample_bot "ping now"
    (receiving (Slackish.initial_world []) (Some "C1") 7).
Proof.
  apply (X18_command_key_ignores_case
           sample_bot "PiNG now" "ping now" "PiNG" ["now"]).
  - reflexivity.
  - reflexivity.
Defined.

(* ===================================================================== *)
(** ** The registry as the help dump sees it *)

(** X19.  Registering keeps the keys of the registry distinct; a new
    name goes to the end of the registry (and of the help dump), a name
    that is already there keeps its place and only changes its entry;
    the entries of all other names stay. *)
Theorem X19_registration_order_and_overwrite :
  forall fn registry,
    well_formed registry ->
    well_formed (Command.__init__ fn registry)
    /\ PyDict.keys (Command.__init__ fn registry)
       = (if PyDict.contains (fn_name fn) registry
          then PyDict.keys registry
          else PyDict.keys registry ++ [fn_name fn])
    /\ (forall name,
           name <> fn_name fn ->
           PyDict.get name (Command.__init__ fn registry)
           = PyDict.get name registry).
Proof.
  intros fn registry Hwf. split; [|split].
  - now apply set_well_formed.
  - apply keys_set.
  - intros name Hne. rewrite get_after_init.
    destruct (String.eqb (fn_name fn) name) eqn:E; [|reflexivity].
    apply String.eqb_eq in E. congruence.
Qed.

Lemma X19_registration_witness :
  PyDict.keys (Command.__init__ ping_again sample_registry)
  = (if PyDict.contains (fn_name ping_again) sample_registry
     then PyDict.keys sample_registry
     else PyDict.keys sample_registry ++ [fn_name ping_again]).
Proof.
  apply (X19_registration_order_and_overwrite ping_again sample_registry).
  exact sample_registry_well_formed.
Defined.

(** X20.  [cmd_help(name)] for a name that is given: one post, the help
    text of that command, when it is registered; [KeyError] and no post
    when it is not (the name is looked up as it is, not lowercased). *)
Theorem X20_help_for_one_command :
  forall client ch self c s w,
    ready client ch w ->
    Slackish.cmd_help self (Some (String c s)) w =
    match PyDict.get (String c s) (Slackish.registry self) with
    | Some d => (add_sent w [mkSent client ch (help d)], Ok tt)
    | None => (w, Raise (KeyError (String c s)))
    end.
Proof.
  intros client ch self c s w Hw. unfold Slackish.cmd_help.
  destruct (PyDict.get (String c s) (Slackish.registry self)) as [d|].
  - now apply post_run.
  - reflexivity.
Qed.

Lemma X20_help_for_one_command_witness :
  Slackish.cmd_help sample_bot (Some "ping")
    (receiving (Slackish.initial_world []) (Some "C1") 7) =
  match PyDict.get "ping" (Slackish.registry sample_bot) with
  | Some d =>
      (add_sent (receiving (Slackish.initial_world []) (Some "C1") 7)
                [mkSent 7 (Some "C1") (help d)], Ok tt)
  | None =>
      (receiving (Slackish.initial_world []) (Some "C1") 7,
       Raise (KeyError "ping"))
  end.
Proof.
  apply (X20_help_for_one_command 7 (Some "C1") sample_bot "p"%char "ing").
  split; reflexivity.
Defined.

(* ===================================================================== *)
(** ** What an event can and cannot do *)

(** Whatever the dispatcher raises is inside [Exception], as long as the
    command functions keep to that. *)
Lemma dispatch_raises_Exceptions client ch self command w w1 e :
  ready client ch w ->
  raises_only_Exceptions (Slackish.registry self) ->
  Slackish.command_to_fn_call self command w = (w1, Raise e) ->
  is_Exception e = true.
Proof.
  intros Hw Hreg Hrun.
  destruct (Shlex.split command) as [[|first others]|e0] eqn:Hsplit.
  - rewrite dispatch_empty in Hrun by assumption. now inversion Hrun.
  - destruct (PyDict.get (PyStr.lower first) (Slackish.registry self))
      as [d|] eqn:Hget.
    + rewrite (dispatch_known_run client ch self command first others d)
        in Hrun by assumption.
      cbv zeta in Hrun.
      destruct (raised _) as [e1|] eqn:Hraised; [|discriminate].
      destruct (is_KeyError e1); [discriminate|].
      inversion Hrun; subst. eapply Hreg; eassumption.
    + rewrite (dispatch_unknown_run client ch self command first others)
        in Hrun by assumption.
      discriminate.
  - unfold Slackish.command_to_fn_call, bind, lift in Hrun.
    rewrite Hsplit in Hrun. inversion Hrun; subst.
    destruct (lex_raises_ValueError _ _ _ _ _ _ Hsplit) as [-> | ->];
      reflexivity.
Qed.

Lemma handle_returns_when_parsed bot payload p w :
  Slackish.parse_bot_commands bot (Slackish.data payload) = Ok p ->
  raises_only_Exceptions (Slackish.registry bot) ->
  snd (Slackish.handle bot payload w) = Ok tt.
Proof.
  intros Hparse Hreg. destruct p as [[[|c s]|] chan].
  - now rewrite (handle_discard bot payload (Some EmptyString) chan).
  - rewrite (handle_dispatch bot payload c s chan) by assumption.
    destruct (Slackish.command_to_fn_call bot (String c s)
                (receiving w chan (Slackish.payload_web_client payload)))
      as [w1 r] eqn:Hrun.
    rewrite (handle_after_dispatch
               (Slackish.payload_web_client payload) chan bot (String c s)
               _ w1 r (ready_receiving _ _ _) Hrun).
    destruct r as [[]|e]; [reflexivity|].
    rewrite (dispatch_raises_Exceptions _ _ _ _ _ _ _
               (ready_receiving _ _ _) Hreg Hrun).
    reflexivity.
  - now rewrite (handle_discard bot payload None chan).
Qed.

(** X21.  With the default pattern, an event that has a [text] and a
    [channel] never makes [handle] raise, as long as the command functions
    raise nothing outside [Exception]: unknown commands, lines that cannot
    be split, wrong keyword arguments and failing commands all end in a
    normal return. *)
Theorem X21_handle_returns_on_every_message_event :
  forall registry token bot_id payload message_text c w,
    PyDict.get "text" (Slackish.data payload) = Some message_text ->
    PyDict.get "channel" (Slackish.data payload) = Some c ->
    raises_only_Exceptions registry ->
    snd (Slackish.handle (Slackish.__init__ registry token None bot_id)
                         payload w) = Ok tt.
Proof.
  intros registry token bot_id payload message_text c w Htext Hchan Hreg.
  set (bot := Slackish.__init__ registry token None bot_id).
  assert (Hparse : exists p,
             Slackish.parse_bot_commands bot (Slackish.data payload) = Ok p).
  { unfold Slackish.parse_bot_commands.
    destruct (negb (PyDict.contains "subtype" (Slackish.data payload)));
      [|eauto].
    rewrite Htext, parse_direct_mention_default by reflexivity.
    destruct (mention_spec message_text) as [[id rest]|].
    - destruct (Slackish.option_string_eqb (Some id) (Slackish.BOT_ID bot));
        [rewrite Hchan|]; eauto.
    - destruct (Slackish.option_string_eqb None (Slackish.BOT_ID bot));
        [rewrite Hchan|]; eauto. }
  destruct Hparse as [p Hparse].
  now apply (handle_returns_when_parsed bot payload p).
Qed.

Lemma sample_registry_raises_only_Exceptions :
  raises_only_Exceptions sample_registry.
Proof.
  intros k d kw queue e Hget Hraised.
  vm_compute in Hget.
  repeat match type of Hget with
         | (if ?b then _ else _) = _ => destruct b
         end;
    try discriminate; inversion Hget; subst; simpl in Hraised;
    repeat match type of Hraised with
           | context [match ?x with _ => _ end] => destruct x
           end;
    simpl in Hraised; inversion Hraised; reflexivity.
Qed.

Lemma X21_handle_returns_witness :
  snd (Slackish.handle (Slackish.__init__ sample_registry None None
                                          (Some "U123"))
                       (message_event "<@U123> setname Alice extra")
                       (Slackish.initial_world [])) = Ok tt.
Proof.
  apply (X21_handle_returns_on_every_message_event
           sample_registry None (Some "U123")
           (message_event "<@U123> setname Alice extra")
           "<@U123> setname Alice extra" "C1").
  - reflexivity.
  - reflexivity.
  - exact sample_registry_raises_only_Exceptions.
Defined.

(** The dispatcher only adds posts, and calls at most one command
    function. *)
Lemma dispatch_only_adds client ch self command w :
  ready client ch w ->
  (exists l,
      outbox (fst (Slackish.command_to_fn_call self command w))
      = outbox w ++ l)
  /\ (calls (fst (Slackish.command_to_fn_call self command w)) = calls w
      \/ exists kw,
           PyDict.contains (fst kw) (Slackish.registry self) = true /\
           calls (fst (Slackish.command_to_fn_call self command w))
           = calls w ++ [kw]).
Proof.
  intros Hw.
  destruct (Shlex.split command) as [[|first others]|e0] eqn:Hsplit.
  - rewrite dispatch_empty by assumption. simpl.
    split; [exists []; now rewrite app_nil_r | now left].
  - destruct (PyDict.get (PyStr.lower first) (Slackish.registry self))
      as [d|] eqn:Hget.
    + rewrite (dispatch_known_run client ch self command first others d)
        by assumption.
      cbv zeta.
      assert (Hin : PyDict.contains (PyStr.lower first)
                      (Slackish.registry self) = true)
        by (unfold PyDict.contains; now rewrite Hget).
      destruct (raised _) as [e1|]; [destruct (is_KeyError e1)|];
        simpl; (split; [eexists; reflexivity|]);
        right; eexists (_, _); split; try reflexivity; exact Hin.
    + rewrite (dispatch_unknown_run client ch self command first others)
        by assumption.
      simpl. split; [eexists; reflexivity | now left].
  - unfold Slackish.command_to_fn_call, bind, lift. rewrite Hsplit. simpl.
    split; [exists []; now rewrite app_nil_r | now left].
Qed.

(** X22.  One event never takes back a post and calls at most one
    command function, which is one of the registry: after [handle], the
    posts made before are still there in front of the new ones, and the
    record of calls is as before or longer by one call whose key is
    registered. *)
Theorem X22_one_event_at_most_one_call :
  forall bot payload w,
    (exists l,
        outbox (fst (Slackish.handle bot payload w)) = outbox w ++ l)
    /\ (calls (fst (Slackish.handle bot payload w)) = calls w
        \/ exists kw,
             PyDict.contains (fst kw) (Slackish.registry bot) = true /\
             calls (fst (Slackish.handle bot payload w)) = calls w ++ [kw]).
Proof.
  intros bot payload w.
  destruct (Slackish.parse_bot_commands bot (Slackish.data payload))
    as [[[[|c s]|] chan]|e] eqn:Hparse.
  - rewrite (handle_discard bot payload (Some EmptyString) chan)
      by (assumption || reflexivity).
    split; [exists []; now rewrite app_nil_r | now left].
  - rewrite (handle_dispatch bot payload c s chan) by assumption.
    set (client := Slackish.payload_web_client payload).
    set (w0 := receiving w chan client).
    destruct (dispatch_only_adds client chan bot (String c s) w0
                (ready_receiving _ _ _)) as [[l Hl] Hcalls].
    destruct (Slackish.command_to_fn_call bot (String c s) w0)
      as [w1 r] eqn:Hrun.
    rewrite (handle_after_dispatch client chan bot (String c s)
               w0 w1 r (ready_receiving _ _ _) Hrun).
    simpl in Hl, Hcalls.
    destruct r as [[]|e]; [|destruct (is_Exception e)]; simpl;
      (split; [rewrite Hl, <- ?app_assoc; eexists; reflexivity
              | exact Hcalls]).
  - rewrite (handle_discard bot payload None chan)
      by (assumption || reflexivity).
    split; [exists []; now rewrite app_nil_r | now left].
  - unfold Slackish.handle, bind, lift. rewrite Hparse. simpl.
    split; [exists []; now rewrite app_nil_r | now left].
Qed.

(** X23.  With the default pattern, a message that opens with a mention
    of somebody else (or any mention, while the bot has no identity) is
    not for the bot: [parse_bot_commands] returns [(None, None)] and
    [handle] drops the event without any effect, whatever follows the
    mention. *)
Theorem X23_mention_of_somebody_else_is_dropped :
  forall registry token bot_id other rest payload w,
    let self := Slackish.__init__ registry token None bot_id in
    mentionable other = true ->
    bot_id <> Some other ->
    PyDict.contains "subtype" (Slackish.data payload) = false ->
    PyDict.get "text" (Slackish.data payload)
      = Some ("<@" ++ other ++ String gt rest)%string ->
    Slackish.parse_bot_commands self (Slackish.data payload)
      = Ok (None, None)
    /\ Slackish.handle self payload w = (w, Ok tt).
Proof.
  intros registry token bot_id other rest payload w self
         Hid Hne Hsub Htext.
  assert (Hp : Slackish.parse_bot_commands self (Slackish.data payload)
               = Ok (None, None)).
  { unfold Slackish.parse_bot_commands. rewrite Hsub, Htext. cbn [negb].
    rewrite parse_direct_mention_default by reflexivity.
    rewrite (mention_spec_mentionable other rest Hid).
    cbn [Slackish.option_string_eqb Slackish.BOT_ID Slackish.__init__ self].
    destruct bot_id as [b|]; [|reflexivity].
    destruct (String.eqb other b) eqn:E; [|reflexivity].
    apply String.eqb_eq in E. congruence. }
  split; [assumption|].
  now apply (handle_discard self payload None None).
Qed.

Lemma X23_mention_of_somebody_else_witness :
  Slackish.parse_bot_commands
    (Slackish.__init__ sample_registry None None (Some "U123"))
    (Slackish.data (message_event "<@U999> ping"))
  = Ok (None, None)
  /\ Slackish.handle
       (Slackish.__init__ sample_registry None None (Some "U123"))
       (message_event "<@U999> ping") (Slackish.initial_world [])
     = (Slackish.initial_world [], Ok tt).
Proof.
  apply (X23_mention_of_somebody_else_is_dropped
           sample_registry None (Some "U123") "U999" " ping"
           (message_event "<@U999> ping") (Slackish.initial_world [])).
  - reflexivity.
  - discriminate.
  - reflexivity.
  - reflexivity.
Defined.

Lemma strip_head s c r :
  PyStr.strip s = String c r -> PyStr.isspace c = false.
Proof.
  unfold PyStr.strip. intros H.
  destruct (PyStr.lstrip s) as [|a l] eqn:El; [discriminate|].
  pose proof (lstrip_head s a l El) as Ha.
  destruct (rstrip_head a l Ha) as [r' Hr]. rewrite Hr in H.
  now inversion H; subst.
Qed.

(** X24.  The command line that [handle] passes to the dispatcher always
    holds a token or cannot be split: it is stripped and not empty, so it
    starts with a character that [shlex] does not skip.  The [IndexError]
    of a line without tokens therefore never arises from an event. *)
Theorem X24_dispatched_line_is_never_blank :
  forall bot payload c s chan,
    Slackish.parse_bot_commands bot (Slackish.data payload)
      = Ok (Some (String c s), chan) ->
    Shlex.is_whitespace c = false
    /\ Shlex.split (String c s) <> Ok [].
Proof.
  intros bot payload c s chan Hparse. split.
  - destruct (parse_bot_commands_stripped _ _ _ _ Hparse) as [g2 Hg2].
    symmetry in Hg2. apply strip_head in Hg2.
    destruct (Shlex.is_whitespace c) eqn:E; [|reflexivity].
    apply shlex_whitespace_isspace in E. congruence.
  - now apply (handle_dispatches_tokens bot payload c s chan).
Qed.

Lemma X24_dispatched_line_witness :
  Shlex.is_whitespace "p"%char = false
  /\ Shlex.split "ping" <> Ok [].
Proof.
  apply (X24_dispatched_line_is_never_blank
           sample_bot (message_event "<@U123>    ping  ")
           "p"%char "ing" (Some "C1")).
  reflexivity.
Defined.
